(** * Voltage alert: the monitoring loop of [alert.py]

    A shallow embedding of [VoltageCheckerApp] (src/alert.py): the three
    configuration slots [update_url], [update_interval], [update_threshold],
    the session controls [start_monitoring] and [stop_monitoring], and the
    worker loop [monitor_voltage] with its fetch, extraction and hysteresis
    steps.

    Python values are modelled as the interpreter has them: a [str] is a
    sequence of Unicode code points, a [float] is an IEEE 754 binary64 number
    (the Standard Library's [spec_float] at precision 53), an [int] is
    unbounded. *)

From Stdlib Require Import ZArith List Bool Lia String Ascii.
From Stdlib Require Import Floats.SpecFloat.
Import ListNotations.

Local Open Scope Z_scope.

(** ** Python strings *)

Module PyStr.

(** A [str] is a list of code points. *)
Definition str := list Z.

(** An ASCII literal, for writing inputs down. *)
Fixpoint lit (s : string) : str :=
  match s with
  | EmptyString => []
  | String c s' => Z.of_N (N_of_ascii c) :: lit s'
  end.

Definition len (s : str) : Z := Z.of_nat (List.length s).

(** [s.startswith(p)] *)
Fixpoint startswith (s p : str) : bool :=
  match p, s with
  | [], _ => true
  | _ :: _, [] => false
  | a :: p', b :: s' => (a =? b) && startswith s' p'
  end.

(** A slice bound as [PySlice_AdjustIndices] clamps it. *)
Definition clamp (n i : Z) : Z :=
  if i <? 0 then Z.max (i + n) 0 else Z.min i n.

(** [s[start:stop]] *)
Definition slice (s : str) (start stop : Z) : str :=
  let n := len s in
  let lo := clamp n start in
  let hi := clamp n stop in
  firstn (Z.to_nat (hi - lo)) (skipn (Z.to_nat lo) s).

(** The characters the number parsers skip at both ends: [Py_ISSPACE] below
    128, [Py_UNICODE_ISSPACE] from there on. *)
Definition is_space (c : Z) : bool :=
  ((9 <=? c) && (c <=? 13)) || (c =? 32) || (c =? 133) || (c =? 160)
  || (c =? 5760) || ((8192 <=? c) && (c <=? 8202)) || (c =? 8232)
  || (c =? 8233) || (c =? 8239) || (c =? 8287) || (c =? 12288).

(** The code points of decimal value zero (Unicode 14.0, category Nd); the
    nine code points after each are the digits one to nine of that
    script. *)
Definition decimal_zeros : list Z :=
  [48; 1632; 1776; 1984; 2406; 2534; 2662; 2790; 2918; 3046; 3174; 3302;
   3430; 3558; 3664; 3792; 3872; 4160; 4240; 6112; 6160; 6470; 6608; 6784;
   6800; 6992; 7088; 7232; 7248; 42528; 43216; 43264; 43472; 43504; 43600;
   44016; 65296; 66720; 68912; 69734; 69872; 69942; 70096; 70384; 70736;
   70864; 71248; 71360; 71472; 71904; 72016; 72784; 73040; 73120; 92768;
   92864; 93008; 120782; 120792; 120802; 120812; 120822; 123200; 123632;
   125264; 130032].

(** [Py_UNICODE_TODECIMAL] *)
Definition decimal_value (c : Z) : option Z :=
  match find (fun z => (z <=? c) && (c <? z + 10)) decimal_zeros with
  | Some z => Some (c - z)
  | None => None
  end.

Definition is_digit (c : Z) : bool :=
  match decimal_value c with Some _ => true | None => false end.

Fixpoint lstrip (s : str) : str :=
  match s with
  | c :: s' => if is_space c then lstrip s' else s
  | [] => []
  end.

Definition strip (s : str) : str := rev (lstrip (rev (lstrip s))).

(** ASCII case folding, as the [inf] and [nan] spellings are matched. *)
Definition lower (c : Z) : Z :=
  if (65 <=? c) && (c <=? 90) then c + 32 else c.

Fixpoint eq_nocase (s p : str) : bool :=
  match s, p with
  | [], [] => true
  | a :: s', b :: p' => (lower a =? b) && eq_nocase s' p'
  | _, _ => false
  end.

(** [digit (["_"] digit)*] read off the front of [s]: the digit values,
    most significant first, and what follows them. *)
Fixpoint digitpart_from (fuel : nat) (s : str) : list Z * str :=
  match fuel with
  | O => ([], s)
  | S fuel' =>
      match s with
      | c :: s' =>
          match decimal_value c with
          | Some d =>
              let '(ds, rest) := digitpart_from fuel' s' in (d :: ds, rest)
          | None =>
              if c =? 95 then
                match s' with
                | c' :: _ =>
                    if is_digit c' then digitpart_from fuel' s' else ([], s)
                | [] => ([], s)
                end
              else ([], s)
          end
      | [] => ([], s)
      end
  end.

(** A digit part must open with a digit; an underscore is only taken
    between two digits. *)
Definition digitpart (s : str) : list Z * str :=
  match s with
  | c :: _ => if is_digit c then digitpart_from (List.length s) s else ([], s)
  | [] => ([], s)
  end.

Definition number_of (ds : list Z) : Z :=
  fold_left (fun acc d => 10 * acc + d) ds 0.

(** An optional sign: whether it is a minus, and the rest. *)
Definition sign (s : str) : bool * str :=
  match s with
  | 43 :: s' => (false, s')
  | 45 :: s' => (true, s')
  | _ => (false, s)
  end.

End PyStr.

(** ** Python floats: IEEE 754 binary64 *)

Module PyFloat.

Definition prec : Z := 53.
Definition emax : Z := 1024.

Definition float := spec_float.

Definition add : float -> float -> float := SFadd prec emax.
Definition mul : float -> float -> float := SFmul prec emax.
Definition le : float -> float -> bool := SFleb.
Definition lt : float -> float -> bool := SFltb.
(** [x >= y] is [y <= x]; both are false when either side is a NaN. *)
Definition ge (x y : float) : bool := SFleb y x.

(** The nearest binary64 number to [m * 2^e], ties to even. *)
Definition of_scaled (m e : Z) : float := binary_normalize prec emax m e false.

(** The literal [0.5] *)
Definition half : float := S754_finite false 4503599627370496 (-53).

Definition is_nan (x : float) : bool :=
  match x with S754_nan => true | _ => false end.

Definition is_finite (x : float) : bool :=
  match x with S754_zero _ | S754_finite _ _ _ => true | _ => false end.

(** The nearest binary64 number to [(-1)^neg * m * 10^e10], ties to even,
    as [PyOS_string_to_double] rounds a decimal numeral: an integer is
    rounded directly, a proper fraction through the quotient with its
    sticky remainder. *)
Definition of_decimal (neg : bool) (m e10 : Z) : float :=
  match m with
  | Zpos _ =>
      if 0 <=? e10 then
        match m * 10 ^ e10 with
        | Zpos p => binary_round prec emax neg p 0
        | _ => S754_zero neg
        end
      else
        let '(q, e, l) := SFdiv_core_binary prec emax m 0 (10 ^ (- e10)) 0 in
        binary_round_aux prec emax neg q e l
  | _ => S754_zero neg
  end.

(** [float(n)] for an [int]: [None] stands for the [OverflowError] of a
    magnitude that rounds past the largest finite number. *)
Definition of_int (n : Z) : option float :=
  let x := of_scaled n 0 in
  if is_finite x then Some x else None.

(** The exact order between a float and an integer, as Python compares a
    [float] with an [int]: no rounding of the integer. *)
Definition compare_int (x : float) (n : Z) : option comparison :=
  match x with
  | S754_nan => None
  | S754_infinity s => Some (if s then Lt else Gt)
  | S754_zero _ => Some (0 ?= n)
  | S754_finite s m e =>
      let v := if s then Z.neg m else Z.pos m in
      if 0 <=? e then Some (v * 2 ^ e ?= n) else Some (v ?= n * 2 ^ (- e))
  end.

Import PyStr.

(** [inf], [infinity] and [nan], in lower case *)
Definition INF : str := [105; 110; 102].
Definition INFINITY : str := [105; 110; 102; 105; 110; 105; 116; 121].
Definition NAN : str := [110; 97; 110].

(** The exponent of a numeral: absent, or [e], an optional sign and a digit
    part that ends the string. *)
Definition exponent (s : str) : option Z :=
  match s with
  | [] => Some 0
  | c :: s' =>
      if lower c =? 101 then
        let '(eneg, s1) := sign s' in
        match digitpart s1 with
        | ((_ :: _) as ds, []) =>
            Some (if eneg then - number_of ds else number_of ds)
        | _ => None
        end
      else None
  end.

(** [float(s)] for a [str]: [None] stands for the [ValueError] of a string
    that is not a float numeral. *)
Definition parse (s : str) : option float :=
  let '(neg, body) := sign (strip s) in
  if eq_nocase body INF || eq_nocase body INFINITY then Some (S754_infinity neg)
  else if eq_nocase body NAN then Some S754_nan
  else
    let '(ip, r1) := digitpart body in
    let '(fp, r2) :=
      match r1 with
      | 46 :: r => digitpart r
      | _ => ([], r1)
      end in
    match ip ++ fp with
    | [] => None
    | ds =>
        match exponent r2 with
        | Some e => Some (of_decimal neg (number_of ds) (e - len fp))
        | None => None
        end
    end.

End PyFloat.

(** ** Python ints *)

Module PyInt.

Import PyStr.

(** [sys.int_info.default_max_str_digits] *)
Definition max_str_digits : Z := 4300.

(** [int(s)] for a [str], base ten: [None] stands for the [ValueError] of a
    string that is not an integer numeral, or of one with more digits than
    the conversion limit. *)
Definition parse (s : str) : option Z :=
  let '(neg, body) := sign (strip s) in
  match digitpart body with
  | ((_ :: _) as ds, []) =>
      if len ds <=? max_str_digits
      then Some (if neg then - number_of ds else number_of ds)
      else None
  | _ => None
  end.

End PyInt.

(** ** Values, exceptions and documents *)

Import PyStr.
Definition float : Type := PyFloat.float.

(** What an attribute loaded from [config.json] or set by a slot can hold. *)
Inductive value :=
| VNone
| VBool (b : bool)
| VInt (n : Z)
| VFloat (x : float)
| VStr (s : str)
| VJson.   (* a JSON array or object *)

(** The exceptions the loop and the slots can meet; all derive from
    [Exception].  [RequestError] is any [RequestException] that is not a
    [Timeout]: a refused connection, a bad URL, the [HTTPError] of
    [raise_for_status]. *)
Inductive exn :=
| ValueError
| TypeError
| OverflowError
| StopIteration
| Timeout
| RequestError.

(** The three [continue] statements of the loop body. *)
Inductive site :=
| AfterTimeout   (* line 155 *)
| NoDivs         (* line 161 *)
| NoVoltage.     (* line 165 *)

(** How a statement ends other than by falling through. *)
Inductive abort :=
| Exception (e : exn)
| Continue (at_ : site).

(** A parsed page, as [BeautifulSoup(text, "html.parser")] builds it: text
    nodes and tags with their [class] values and children. *)
#[local] Unset Elimination Schemes.
Inductive node :=
| Text (s : str)
| Tag (name : str) (classes : list str) (children : list node).
#[local] Set Elimination Schemes.

(** What [requests.get(url, timeout=5)] meets on the network. *)
Inductive network :=
| TimedOut
| Unreachable
| Responded (status : Z) (document : list node).

(** What the application does that can be observed from outside. *)
Inductive effect :=
| Emit (voltage : float)        (* alert_signal.emit(voltage) *)
| Print (caught : option exn)   (* "Request timed out" for None, "Error: ..." *)
| Information (running : bool). (* the message box of start and stop *)

Definition str_eqb (a b : str) : bool :=
  if list_eq_dec Z.eq_dec a b then true else false.

Module Bs4.

Definition DIV : str := lit "div".
Definition TEXT_MD : str := lit "text-md".

(** [node.text]: the text nodes below, joined in document order. *)
Fixpoint text (n : node) : str :=
  match n with
  | Text s => s
  | Tag _ _ children => flat_map text children
  end.

Definition matches (name class : str) (n : node) : bool :=
  match n with
  | Text _ => false
  | Tag nm classes _ => str_eqb nm name && existsb (str_eqb class) classes
  end.

(** The matching tags at and below [n], in document order. *)
Fixpoint descend (name class : str) (n : node) : list node :=
  (if matches name class n then [n] else [])
  ++ match n with
     | Text _ => []
     | Tag _ _ children => flat_map (descend name class) children
     end.

(** [soup.find_all(name, class)] *)
Definition find_all (soup : list node) (name class : str) : list node :=
  flat_map (descend name class) soup.

(** [Tag.__bool__]: a tag is true even when it has no contents. *)
Definition truth (n : node) : bool := true.

End Bs4.

(** ** The application object *)

Record App := mkApp {
  monitoring : bool;
  alerted : bool;
  mutex : bool;                (* locked *)
  url : value;
  interval : value;
  threshold : value;
  start_button : bool;         (* enabled *)
  stop_button : bool;
  threads : nat;               (* live [monitor_voltage] threads *)
  trace : list effect          (* oldest first *)
}.

Definition set_monitoring (b : bool) (a : App) : App :=
  mkApp b (alerted a) (mutex a) (url a) (interval a) (threshold a)
        (start_button a) (stop_button a) (threads a) (trace a).
Definition set_alerted (b : bool) (a : App) : App :=
  mkApp (monitoring a) b (mutex a) (url a) (interval a) (threshold a)
        (start_button a) (stop_button a) (threads a) (trace a).
Definition set_mutex (b : bool) (a : App) : App :=
  mkApp (monitoring a) (alerted a) b (url a) (interval a) (threshold a)
        (start_button a) (stop_button a) (threads a) (trace a).
Definition set_url (v : value) (a : App) : App :=
  mkApp (monitoring a) (alerted a) (mutex a) v (interval a) (threshold a)
        (start_button a) (stop_button a) (threads a) (trace a).
Definition set_interval (v : value) (a : App) : App :=
  mkApp (monitoring a) (alerted a) (mutex a) (url a) v (threshold a)
        (start_button a) (stop_button a) (threads a) (trace a).
Definition set_threshold (v : value) (a : App) : App :=
  mkApp (monitoring a) (alerted a) (mutex a) (url a) (interval a) v
        (start_button a) (stop_button a) (threads a) (trace a).
Definition set_start_button (b : bool) (a : App) : App :=
  mkApp (monitoring a) (alerted a) (mutex a) (url a) (interval a) (threshold a)
        b (stop_button a) (threads a) (trace a).
Definition set_stop_button (b : bool) (a : App) : App :=
  mkApp (monitoring a) (alerted a) (mutex a) (url a) (interval a) (threshold a)
        (start_button a) b (threads a) (trace a).
Definition set_threads (n : nat) (a : App) : App :=
  mkApp (monitoring a) (alerted a) (mutex a) (url a) (interval a) (threshold a)
        (start_button a) (stop_button a) n (trace a).
Definition log (e : effect) (a : App) : App :=
  mkApp (monitoring a) (alerted a) (mutex a) (url a) (interval a) (threshold a)
        (start_button a) (stop_button a) (threads a) (trace a ++ [e]).

(** [__init__], with the three values [load_config] found (or [None]). *)
Definition init (cfg_url cfg_interval cfg_threshold : value) : App :=
  mkApp false false false cfg_url cfg_interval cfg_threshold true false 0 [].

(** The alert latch as the two-valued state of the design. *)
Inductive AlertState := Armed | Alerted.

Definition alert_state (a : App) : AlertState :=
  if alerted a then Alerted else Armed.

(** The voltages handed to the alert sink so far. *)
Definition emitted (a : App) : list float :=
  flat_map (fun e => match e with Emit v => [v] | _ => [] end) (trace a).

(** ** Statements: state, exceptions and [continue] *)

Inductive outcome (A : Type) :=
| Done (x : A) (a : App)
| Abort (why : abort) (a : App).
Arguments Done {A} x a.
Arguments Abort {A} why a.

Definition M (A : Type) := App -> outcome A.

Definition ret {A} (x : A) : M A := fun a => Done x a.
Definition bind {A B} (c : M A) (k : A -> M B) : M B :=
  fun a => match c a with
           | Done x a' => k x a'
           | Abort why a' => Abort why a'
           end.
Definition raise {A} (e : exn) : M A := fun a => Abort (Exception e) a.
Definition continue {A} (at_ : site) : M A := fun a => Abort (Continue at_) a.
Definition get {A} (f : App -> A) : M A := fun a => Done (f a) a.
Definition modify (f : App -> App) : M unit := fun a => Done tt (f a).
Definition when (b : bool) (c : M unit) : M unit := if b then c else ret tt.

(** [None] for "raised nothing". *)
Definition check (r : option exn) : M unit :=
  match r with Some e => raise e | None => ret tt end.
Definition lift {A} (r : exn + A) : M A :=
  match r with inl e => raise e | inr x => ret x end.

Declare Scope py_scope.
Delimit Scope py_scope with py.
Notation "x <- c ;; k" := (bind c (fun x => k))
  (at level 61, c at next level, right associativity) : py_scope.
Notation "c ;; k" := (bind c (fun _ => k))
  (at level 61, right associativity) : py_scope.
Local Open Scope py_scope.

(** [try: body finally: fin] *)
Definition try_finally {A} (body : M A) (fin : App -> App) : M A :=
  fun a => match body a with
           | Done x a' => Done x (fin a')
           | Abort why a' => Abort why (fin a')
           end.

(** [try: body except <class>: handler]; a [continue] is not an exception. *)
Definition try_except {A} (body : M A) (catches : exn -> bool)
           (handler : exn -> M A) : M A :=
  fun a => match body a with
           | Abort (Exception e) a' =>
               if catches e then handler e a' else Abort (Exception e) a'
           | r => r
           end.

Definition lock : M unit := modify (set_mutex true).
Definition unlock : App -> App := set_mutex false.

(** ** The built-ins the methods call *)

(** [int(s)] *)
Definition int_ (s : str) : exn + Z :=
  match PyInt.parse s with Some n => inr n | None => inl ValueError end.

(** [float(s)] *)
Definition float_ (s : str) : exn + float :=
  match PyFloat.parse s with Some x => inr x | None => inl ValueError end.

(** [t + 0.5] *)
Definition add_half (t : value) : exn + float :=
  match t with
  | VFloat x => inr (PyFloat.add x PyFloat.half)
  | VInt n =>
      match PyFloat.of_int n with
      | Some x => inr (PyFloat.add x PyFloat.half)
      | None => inl OverflowError
      end
  | VBool b => inr (PyFloat.add (PyFloat.of_scaled (Z.b2z b) 0) PyFloat.half)
  | VNone | VStr _ | VJson => inl TypeError
  end.

Definition le_int (v : float) (n : Z) : bool :=
  match PyFloat.compare_int v n with
  | Some (Lt | Eq) => true
  | _ => false
  end.

(** [v <= t] for a float [v] *)
Definition le_value (v : float) (t : value) : exn + bool :=
  match t with
  | VFloat x => inr (PyFloat.le v x)
  | VInt n => inr (le_int v n)
  | VBool b => inr (le_int v (Z.b2z b))
  | VNone | VStr _ | VJson => inl TypeError
  end.

(** Whether a number of nanoseconds fits the signed 64 bits of a timestamp. *)
Definition fits_time (ns : Z) : bool :=
  (- 2 ^ 63 <=? ns) && (ns <=? 2 ^ 63 - 1).

(** [time.sleep(secs)]: the exception it raises instead of sleeping, if any
    (CPython 3.11: the length is turned into nanoseconds first). *)
Definition sleep (secs : value) : option exn :=
  match secs with
  | VNone | VStr _ | VJson => Some TypeError
  | VBool _ => None
  | VInt n =>
      if negb (fits_time (n * 10 ^ 9)) then Some OverflowError
      else if n <? 0 then Some ValueError
      else None
  | VFloat x =>
      if PyFloat.is_nan x then Some ValueError
      else
        let ns := PyFloat.mul x (PyFloat.of_scaled (10 ^ 9) 0) in
        let bound := PyFloat.of_scaled (2 ^ 63) 0 in
        if negb (PyFloat.le (SFopp bound) ns && PyFloat.le ns bound)
        then Some OverflowError
        else if PyFloat.lt ns (S754_zero false) then Some ValueError
        else None
  end.

(** What [requests.get] returns: the status and the parsed text. *)
Record response := mkResponse { status_code : Z; soup_of : list node }.

(** [requests.get(url, timeout=5)]: only a string can be a usable URL. *)
Definition requests_get (u : value) (net : network) : exn + response :=
  match u with
  | VStr _ =>
      match net with
      | TimedOut => inl Timeout
      | Unreachable => inl RequestError
      | Responded st doc => inr (mkResponse st doc)
      end
  | _ => inl RequestError
  end.

(** [response.raise_for_status()] *)
Definition raise_for_status (r : response) : option exn :=
  if (400 <=? status_code r) && (status_code r <? 600)
  then Some RequestError else None.

(** [next(it)] with no default, on the items the generator yields. *)
Definition next {A} (items : list A) : exn + A :=
  match items with
  | x :: _ => inr x
  | [] => inl StopIteration
  end.

(** The label of line 163, code point by code point: seven Cyrillic letters
    (U+041D U+0430 U+043F U+0440 U+0443 U+0433 U+0430) and a colon. *)
Definition LABEL : str := [1053; 1072; 1087; 1088; 1091; 1075; 1072; 58].

Definition is_exn (e e' : exn) : bool :=
  match e, e' with
  | ValueError, ValueError | TypeError, TypeError
  | OverflowError, OverflowError | StopIteration, StopIteration
  | Timeout, Timeout | RequestError, RequestError => true
  | _, _ => false
  end.

(** ** The methods of [VoltageCheckerApp] *)

Definition update_url (new_url : str) : M unit :=
  try_finally
    (lock ;;
     modify (set_url (VStr new_url)))
    unlock.

Definition update_interval (new_interval : str) : M unit :=
  try_finally
    (lock ;;
     n <- lift (int_ new_interval) ;;
     modify (set_interval (VInt n)))
    unlock.

Definition update_threshold (new_threshold : str) : M unit :=
  try_finally
    (lock ;;
     x <- lift (float_ new_threshold) ;;
     modify (set_threshold (VFloat x)))
    unlock.

Definition spawn (a : App) : App := set_threads (S (threads a)) a.

Definition start_monitoring : M unit :=
  running <- get monitoring ;;
  if running then modify (log (Information true))
  else
    modify (set_monitoring true) ;;
    modify (set_start_button false) ;;
    modify (set_stop_button true) ;;
    modify spawn.

Definition stop_monitoring : M unit :=
  running <- get monitoring ;;
  if negb running then modify (log (Information false))
  else
    modify (set_monitoring false) ;;
    modify (set_start_button true) ;;
    modify (set_stop_button false).

(** Lines 169 to 174: the latch is cleared at or above [threshold + 0.5],
    then set, with one emission, at or below [threshold] when it is clear. *)
Definition hysteresis (voltage : float) (thr : value) : M unit :=
  limit <- lift (add_half thr) ;;
  when (PyFloat.ge voltage limit) (modify (set_alerted false)) ;;
  low <- lift (le_value voltage thr) ;;
  latched <- get alerted ;;
  when (low && negb latched)
       (modify (set_alerted true) ;;
        modify (log (Emit voltage))).

(** The divs of the page the generator of line 163 yields. *)
Definition labelled (divs : list node) : list node :=
  filter (fun d => startswith (Bs4.text d) LABEL) divs.

(** Lines 150 to 155: the request, with its own handler for a timeout. *)
Definition fetch (u : value) (net : network) : M response :=
  try_except
    (r <- lift (requests_get u net) ;;
     check (raise_for_status r) ;;
     ret r)
    (is_exn Timeout)
    (fun _ => modify (log (Print None)) ;; continue AfterTimeout).

(** Lines 157 to 167: from the page to the voltage. *)
Definition extract (resp : response) : M float :=
  let divs := Bs4.find_all (soup_of resp) Bs4.DIV Bs4.TEXT_MD in
  when (match divs with [] => true | _ :: _ => false end) (continue NoDivs) ;;
  div <- lift (next (labelled divs)) ;;
  when (negb (Bs4.truth div)) (continue NoVoltage) ;;
  lift (float_ (slice (Bs4.text div) 9 (-1))).

(** Lines 142 to 174: the body of the [try] inside the loop. *)
Definition body (net : network) : M unit :=
  lock ;;
  u <- get url ;;
  secs <- get interval ;;
  thr <- get threshold ;;
  modify unlock ;;
  check (sleep secs) ;;
  resp <- fetch u net ;;
  voltage <- extract resp ;;
  hysteresis voltage thr.

(** Lines 141 to 177: one pass of the loop, the body under
    [except Exception]. *)
Definition pass (net : network) : M unit :=
  try_except (body net) (fun _ => true)
             (fun e => modify (log (Print (Some e)))).

(** The state a statement leaves. *)
Definition state_of {A} (r : outcome A) : App :=
  match r with Done _ a => a | Abort _ a => a end.

(** The exception a call lets through to its caller. *)
Definition raised {A} (r : outcome A) : option exn :=
  match r with Abort (Exception e) _ => Some e | _ => None end.

(** [monitor_voltage], run by one thread against the answers of the network
    with nothing else touching the object: the final state, and whether the
    loop was left.  A [continue] and a caught exception both lead to the next
    test of [self.monitoring]. *)
Fixpoint monitor_voltage (nets : list network) (a : App) : App * bool :=
  if monitoring a then
    match nets with
    | net :: rest => monitor_voltage rest (state_of (pass net a))
    | [] => (a, false)
    end
  else (set_start_button true a, true).

(** ** Interleaving: user actions and worker turns *)

Inductive action :=
| Start
| Stop
| SetUrl (s : str)
| SetInterval (s : str)
| SetThreshold (s : str)
| Turn (net : network).   (* a live worker goes round the loop once *)

(** A worker at the head of the loop: another pass, or the way out. *)
Definition turn (net : network) (a : App) : App :=
  match threads a with
  | O => a
  | S n =>
      if monitoring a then state_of (pass net a)
      else set_start_button true (set_threads n a)
  end.

Definition step (a : App) (act : action) : App :=
  match act with
  | Start => state_of (start_monitoring a)
  | Stop => state_of (stop_monitoring a)
  | SetUrl s => state_of (update_url s a)
  | SetInterval s => state_of (update_interval s a)
  | SetThreshold s => state_of (update_threshold s a)
  | Turn net => turn net a
  end.

Definition run (acts : list action) (a : App) : App := fold_left step acts a.

(** The states a run passes through, the first one included. *)
Fixpoint states (acts : list action) (a : App) : list App :=
  a :: match acts with
       | [] => []
       | act :: rest => states rest (step a act)
       end.

(** ** What the design document says, in its own words *)

(** The extraction as the design words it: the label prefix and one trailing
    unit character are stripped, the rest is parsed. *)
Definition spec_extract (resp : response) : M float :=
  let divs := Bs4.find_all (soup_of resp) Bs4.DIV Bs4.TEXT_MD in
  when (match divs with [] => true | _ :: _ => false end) (continue NoDivs) ;;
  div <- lift (next (labelled divs)) ;;
  lift (float_ (slice (Bs4.text div) (len LABEL) (-1))).

(** An input of the interval slot "parses as a positive integer". *)
Definition positive_integer (s : str) : bool :=
  match PyInt.parse s with Some n => 0 <? n | None => false end.

(** ** Readings, pages and sessions used below *)

(** The readings fed to the latch one after the other: the states passed. *)
Fixpoint feed (thr : value) (readings : list float) (a : App) : list App :=
  match readings with
  | [] => []
  | v :: rest =>
      let a' := state_of (hysteresis v thr a) in a' :: feed thr rest a'
  end.

(** A decimal literal [m * 10^e]. *)
Definition dec (m e : Z) : float := PyFloat.of_decimal false m e.

(** The unit letter after the number on the page, U+0412. *)
Definition UNIT : str := [1042].

(** A page whose only div of class [text-md] holds [txt]. *)
Definition page (txt : str) : network :=
  Responded 200 [Tag (lit "html") []
                   [Tag (lit "body") []
                      [Tag Bs4.DIV [Bs4.TEXT_MD] [Text txt]]]].

(** A page showing the label, a space, the numeral and the unit. *)
Definition showing (numeral : string) : network :=
  page (LABEL ++ [32] ++ lit numeral ++ UNIT).

(** A fresh application with a usable configuration. *)
Definition fresh : App :=
  init (VStr (lit "http://inverter.local/status")) (VInt 1) (VFloat (dec 200 0)).

(** Ten to the sixteenth, where binary64 numbers are two apart: adding a
    half changes nothing. *)
Definition big : float := dec 1 16.

(** A session whose latch is set. *)
Definition latched : App := set_alerted true fresh.

(** The answer to a request whose page has no space between the label and
    the numeral. *)
Definition tight : response :=
  mkResponse 200 [Tag Bs4.DIV [Bs4.TEXT_MD]
                    [Text (LABEL ++ lit "220.5" ++ UNIT)]].

(** A session just started on the fresh application. *)
Definition started : App := run [Start] fresh.

(** A page whose only div of class [text-md] does not show the label. *)
Definition unlabelled : list node :=
  [Tag Bs4.DIV [Bs4.TEXT_MD] [Text (lit "Output: 1200W")]].

(** ** Relating two runs *)

(** What a pass reads of the object, and what it can change of it that an
    observer of the alerts sees. *)
Definition same_inputs (a b : App) : Prop :=
  url a = url b /\ interval a = interval b /\ threshold a = threshold b /\
  alerted a = alerted b /\ emitted a = emitted b.

(** Two runs of a statement that end the same way in states alike. *)
Definition agree {A} (r1 r2 : outcome A) : Prop :=
  match r1, r2 with
  | Done x a, Done y b => x = y /\ same_inputs a b
  | Abort w a, Abort w' b => w = w' /\ same_inputs a b
  | _, _ => False
  end.

(** A statement that behaves alike from states alike. *)
Definition respects {A} (c : M A) : Prop :=
  forall a b, same_inputs a b -> agree (c a) (c b).

(** What only the user's actions change. *)
Definition untouched (a a' : App) : Prop :=
  monitoring a' = monitoring a /\ threads a' = threads a /\
  url a' = url a /\ interval a' = interval a /\ threshold a' = threshold a.

(** A statement that leaves the session and the configuration alone. *)
Definition keeps {A} (c : M A) : Prop :=
  forall a, untouched a (state_of (c a)).

(** ** The configuration file *)

(** What [load_config] finds at [config.json]: no file, a file that cannot be
    opened or is not JSON, or the JSON object in it, as the dict it loads
    to. *)
Inductive config_file :=
| NoFile
| BadFile
| Loaded (cfg : list (str * value)).

(** Lines 96 to 118: the dict returned, and whether the error box was
    shown. *)
Definition load_config (f : config_file) : list (str * value) * bool :=
  match f with
  | Loaded cfg => (cfg, false)
  | BadFile => ([], true)
  | NoFile => ([], true)
  end.

(** [d.get(key)] *)
Fixpoint dict_get (d : list (str * value)) (key : str) : value :=
  match d with
  | [] => VNone
  | (k, v) :: d' => if str_eqb k key then v else dict_get d' key
  end.

(** Lines 29 and 60 to 65: the attributes the constructor sets. *)
Definition attributes (f : config_file) : App :=
  let config := fst (load_config f) in
  init (dict_get config (lit "url"))
       (dict_get config (lit "check_interval"))
       (dict_get config (lit "threshold")).

(** ** Runs of readings, and what a statement leaves alone *)

(** The readings fed to the latch one after the other: the state reached. *)
Definition settle (thr : value) (readings : list float) (a : App) : App :=
  fold_left (fun a v => state_of (hysteresis v thr a)) readings a.

(** A statement that leaves one attribute of the object as it found it. *)
Definition preserves {X A} (f : App -> X) (c : M A) : Prop :=
  forall a, f (state_of (c a)) = f a.

(** * Properties *)

(** ** The order on binary64 numbers *)

Lemma compare_cont_flip (m n : positive) :
  Pos.compare_cont Eq n m = CompOpp (Pos.compare_cont Eq m n).
Proof. exact (Pos.compare_antisym m n). Qed.

(** Swapping the sides of a comparison reverses its answer; a NaN answers
    neither way. *)
Lemma SFcompare_flip (x y : float) :
  SFcompare y x = option_map CompOpp (SFcompare x y).
Proof.
  destruct x as [sx|sx| |sx mx ex], y as [sy|sy| |sy my ey]; simpl;
    try reflexivity;
    try (destruct sx; reflexivity); try (destruct sy; reflexivity);
    try (destruct sx, sy; reflexivity).
  destruct sx, sy; simpl; try reflexivity;
    rewrite (Z.compare_antisym ex ey), (compare_cont_flip mx my);
    destruct (ex ?= ey); simpl; try reflexivity;
    destruct (Pos.compare_cont Eq mx my); reflexivity.
Qed.

Lemma lt_not_ge (x y : float) :
  PyFloat.lt x y = true -> PyFloat.ge x y = false.
Proof.
  unfold PyFloat.lt, PyFloat.ge, SFltb, SFleb.
  rewrite (SFcompare_flip x y).
  destruct (SFcompare x y) as [[]|]; simpl; congruence.
Qed.

Lemma lt_not_le (x y : float) :
  PyFloat.lt x y = true -> PyFloat.le y x = false.
Proof. exact (lt_not_ge x y). Qed.

(** ** The statements of the latch *)

Lemma emitted_log (e : effect) (a : App) :
  emitted (log e a) = emitted a ++ match e with Emit v => [v] | _ => [] end.
Proof.
  unfold emitted, log; simpl.
  rewrite flat_map_app; simpl. now rewrite app_nil_r.
Qed.

Lemma emitted_set_alerted (b : bool) (a : App) :
  emitted (set_alerted b a) = emitted a.
Proof. reflexivity. Qed.

(** The latch on a float threshold, by the two tests of lines 169 and 172. *)
Lemma hysteresis_float (v t : float) (a : App) :
  hysteresis v (VFloat t) a =
  let a1 := if PyFloat.ge v (PyFloat.add t PyFloat.half)
            then set_alerted false a else a in
  if PyFloat.le v t && negb (alerted a1)
  then Done tt (log (Emit v) (set_alerted true a1))
  else Done tt a1.
Proof.
  unfold hysteresis, bind, lift, add_half, le_value, when, modify, get, ret.
  destruct (PyFloat.ge v (PyFloat.add t PyFloat.half)); simpl;
    destruct (PyFloat.le v t); simpl; try reflexivity;
    destruct (alerted a); reflexivity.
Qed.

(** C1. A reading at or below the threshold that finds the latch Armed sets
    it to Alerted and emits exactly one alert, carrying that reading. *)
Theorem fire_rule (v t : float) (a : App) :
  PyFloat.le v t = true ->
  alert_state a = Armed ->
  hysteresis v (VFloat t) a = Done tt (log (Emit v) (set_alerted true a)) /\
  alert_state (state_of (hysteresis v (VFloat t) a)) = Alerted /\
  emitted (state_of (hysteresis v (VFloat t) a)) = emitted a ++ [v].
Proof.
  intros Hle Harmed.
  assert (Hoff : alerted a = false).
  { unfold alert_state in Harmed. destruct (alerted a); congruence. }
  assert (Heq : hysteresis v (VFloat t) a
                = Done tt (log (Emit v) (set_alerted true a))).
  { rewrite hysteresis_float. cbv zeta.
    destruct (PyFloat.ge v (PyFloat.add t PyFloat.half));
      rewrite Hle; simpl; rewrite ?Hoff; reflexivity. }
  rewrite Heq. repeat split.
  simpl state_of. now rewrite emitted_log, emitted_set_alerted.
Qed.

Lemma fire_rule_witness :
  hysteresis (dec 199 0) (VFloat (dec 200 0)) fresh
  = Done tt (log (Emit (dec 199 0)) (set_alerted true fresh)) /\
  alert_state (state_of (hysteresis (dec 199 0) (VFloat (dec 200 0)) fresh))
  = Alerted /\
  emitted (state_of (hysteresis (dec 199 0) (VFloat (dec 200 0)) fresh))
  = emitted fresh ++ [dec 199 0].
Proof. apply fire_rule; reflexivity. Defined.

(** [<=] on binary64 numbers is transitive. *)
Lemma le_trans (x y z : float) :
  PyFloat.le x y = true -> PyFloat.le y z = true -> PyFloat.le x z = true.
Proof.
  unfold PyFloat.le, SFleb.
  destruct x as [sx|sx| |sx mx ex], y as [sy|sy| |sy my ey],
           z as [sz|sz| |sz mz ez]; simpl;
    try congruence;
    try (destruct sx; simpl; congruence);
    try (destruct sy; simpl; congruence);
    try (destruct sz; simpl; congruence);
    try (destruct sx, sy; simpl; congruence);
    try (destruct sy, sz; simpl; congruence);
    try (destruct sx, sz; simpl; congruence);
    try (destruct sx, sy, sz; simpl; congruence).
  change (Pos.compare_cont Eq mx my) with (mx ?= my)%positive.
  change (Pos.compare_cont Eq my mz) with (my ?= mz)%positive.
  change (Pos.compare_cont Eq mx mz) with (mx ?= mz)%positive.
  destruct sx, sy, sz; simpl; try congruence;
    destruct (Z.compare_spec ex ey), (Z.compare_spec ey ez),
             (Z.compare_spec ex ez); simpl; try congruence; try lia;
    destruct (Pos.compare_spec mx my), (Pos.compare_spec my mz),
             (Pos.compare_spec mx mz); simpl; try congruence; try lia.
Qed.

(** Where the threshold lies strictly below [threshold + 0.5], no reading is
    on both sides of the band. *)
Lemma band_separates (v t : float) :
  PyFloat.lt t (PyFloat.add t PyFloat.half) = true ->
  PyFloat.ge v (PyFloat.add t PyFloat.half) = true ->
  PyFloat.le v t = false.
Proof.
  intros Hband Hge.
  destruct (PyFloat.le v t) eqn:Hle; [|reflexivity].
  pose proof (le_trans _ _ _ Hge Hle) as Habs.
  rewrite (lt_not_le _ _ Hband) in Habs. discriminate.
Qed.

(** C2, as amended. A reading at or above [threshold + 0.5] that is not also
    at or below the threshold leaves the latch Armed, whatever it was, and
    emits nothing. *)
Theorem recovery_rule (v t : float) (a : App) :
  PyFloat.ge v (PyFloat.add t PyFloat.half) = true ->
  PyFloat.le v t = false ->
  hysteresis v (VFloat t) a = Done tt (set_alerted false a) /\
  alert_state (state_of (hysteresis v (VFloat t) a)) = Armed /\
  emitted (state_of (hysteresis v (VFloat t) a)) = emitted a.
Proof.
  intros Hge Hle.
  assert (Heq : hysteresis v (VFloat t) a = Done tt (set_alerted false a)).
  { rewrite hysteresis_float. cbv zeta. now rewrite Hge, Hle. }
  rewrite Heq. repeat split.
Qed.

Lemma recovery_rule_witness :
  hysteresis (dec 2005 (-1)) (VFloat (dec 200 0)) latched
  = Done tt (set_alerted false latched) /\
  alert_state (state_of (hysteresis (dec 2005 (-1)) (VFloat (dec 200 0)) latched))
  = Armed /\
  emitted (state_of (hysteresis (dec 2005 (-1)) (VFloat (dec 200 0)) latched))
  = emitted latched.
Proof. apply recovery_rule; reflexivity. Defined.

(** C2 as stated fails where the half is absorbed by rounding: at a threshold
    of 1e16 the reading 1e16 is at or above [threshold + 0.5] and at or below
    the threshold at once, so the latch is cleared and then set, and an alert
    goes out. *)
Lemma recovery_rule_counterexample :
  float_ (lit "1e16") = inr big /\
  valid_binary PyFloat.prec PyFloat.emax big = true /\
  PyFloat.ge big (PyFloat.add big PyFloat.half) = true /\
  alert_state (state_of (hysteresis big (VFloat big) fresh)) = Alerted /\
  emitted fresh = [] /\
  emitted (state_of (hysteresis big (VFloat big) fresh)) = [big].
Proof. repeat split; vm_compute; reflexivity. Qed.

(** C3, as amended. A reading strictly inside the band, in either state, and
    a reading at or below the threshold that finds the latch Alerted and is
    not also at or above [threshold + 0.5], change nothing and emit
    nothing. *)
Theorem hold_rule (v t : float) (a : App) :
  (PyFloat.lt t v = true /\ PyFloat.lt v (PyFloat.add t PyFloat.half) = true)
  \/ (PyFloat.le v t = true /\ alert_state a = Alerted /\
      PyFloat.ge v (PyFloat.add t PyFloat.half) = false) ->
  hysteresis v (VFloat t) a = Done tt a /\
  alert_state (state_of (hysteresis v (VFloat t) a)) = alert_state a /\
  emitted (state_of (hysteresis v (VFloat t) a)) = emitted a.
Proof.
  intros H.
  assert (Heq : hysteresis v (VFloat t) a = Done tt a).
  { rewrite hysteresis_float. cbv zeta.
    destruct H as [[Hlo Hhi] | (Hle & Hon & Hge)].
    - now rewrite (lt_not_ge _ _ Hhi), (lt_not_le _ _ Hlo).
    - rewrite Hge, Hle. unfold alert_state in Hon.
      destruct (alerted a); [reflexivity | discriminate]. }
  rewrite Heq. repeat split.
Qed.

Lemma hold_rule_witness :
  (hysteresis (dec 2003 (-1)) (VFloat (dec 200 0)) fresh = Done tt fresh /\
   alert_state (state_of (hysteresis (dec 2003 (-1)) (VFloat (dec 200 0)) fresh))
   = alert_state fresh /\
   emitted (state_of (hysteresis (dec 2003 (-1)) (VFloat (dec 200 0)) fresh))
   = emitted fresh) /\
  (hysteresis (dec 1995 (-1)) (VFloat (dec 200 0)) latched = Done tt latched /\
   alert_state (state_of (hysteresis (dec 1995 (-1)) (VFloat (dec 200 0)) latched))
   = alert_state latched /\
   emitted (state_of (hysteresis (dec 1995 (-1)) (VFloat (dec 200 0)) latched))
   = emitted latched).
Proof.
  split; apply hold_rule.
  - left; split; reflexivity.
  - right; repeat split; reflexivity.
Defined.

(** C3 as stated fails at the same place as C2: at a threshold of 1e16 the
    reading 1e16 is at or below the threshold and finds the latch Alerted,
    yet it clears the latch on the way and a second alert goes out. *)
Lemma hold_rule_counterexample :
  PyFloat.le big big = true /\
  alert_state latched = Alerted /\
  emitted latched = [] /\
  emitted (state_of (hysteresis big (VFloat big) latched)) = [big].
Proof. repeat split; vm_compute; reflexivity. Qed.

Lemma feed_cons (thr : value) (v : float) (rest : list float) (a : App) :
  feed thr (v :: rest) a =
  state_of (hysteresis v thr a) :: feed thr rest (state_of (hysteresis v thr a)).
Proof. reflexivity. Qed.

(** C4. With the threshold at 200.0 and the latch Armed, the readings 205.0,
    199.0, 199.5, 200.5 leave the latch Armed, Alerted, Alerted, Armed, and
    the only alert is the one for 199.0. *)
Theorem scenario_200 (a : App) :
  alert_state a = Armed ->
  let passed :=
    feed (VFloat (dec 200 0))
         [dec 205 0; dec 199 0; dec 1995 (-1); dec 2005 (-1)] a in
  map alert_state passed = [Armed; Alerted; Alerted; Armed] /\
  map emitted passed =
  [emitted a; emitted a ++ [dec 199 0]; emitted a ++ [dec 199 0];
   emitted a ++ [dec 199 0]].
Proof.
  intros Harmed.
  assert (E1 : hysteresis (dec 205 0) (VFloat (dec 200 0)) a
               = Done tt (set_alerted false a))
    by (rewrite hysteresis_float; reflexivity).
  assert (E2 : hysteresis (dec 199 0) (VFloat (dec 200 0)) (set_alerted false a)
               = Done tt (log (Emit (dec 199 0))
                              (set_alerted true (set_alerted false a))))
    by (rewrite hysteresis_float; reflexivity).
  set (a2 := log (Emit (dec 199 0)) (set_alerted true (set_alerted false a))) in *.
  assert (E3 : hysteresis (dec 1995 (-1)) (VFloat (dec 200 0)) a2 = Done tt a2)
    by (rewrite hysteresis_float; reflexivity).
  assert (E4 : hysteresis (dec 2005 (-1)) (VFloat (dec 200 0)) a2
               = Done tt (set_alerted false a2))
    by (rewrite hysteresis_float; reflexivity).
  cbv zeta. rewrite !feed_cons, E1. cbn [state_of]. rewrite E2.
  cbn [state_of]. fold a2. rewrite E3. cbn [state_of]. rewrite E4.
  cbn [state_of feed map].
  split; [reflexivity|].
  unfold a2.
  rewrite !emitted_set_alerted, !emitted_log, !emitted_set_alerted.
  reflexivity.
Qed.

Lemma scenario_200_witness :
  map alert_state
      (feed (VFloat (dec 200 0))
            [dec 205 0; dec 199 0; dec 1995 (-1); dec 2005 (-1)] fresh)
  = [Armed; Alerted; Alerted; Armed] /\
  map emitted
      (feed (VFloat (dec 200 0))
            [dec 205 0; dec 199 0; dec 1995 (-1); dec 2005 (-1)] fresh)
  = [emitted fresh; emitted fresh ++ [dec 199 0]; emitted fresh ++ [dec 199 0];
     emitted fresh ++ [dec 199 0]].
Proof. apply (scenario_200 fresh); reflexivity. Defined.

(** ** Sessions *)

(** Neither control touches the latch. *)
Lemma start_keeps_latch (a : App) :
  alerted (state_of (start_monitoring a)) = alerted a /\
  emitted (state_of (start_monitoring a)) = emitted a.
Proof.
  unfold start_monitoring, bind, get, modify.
  destruct (monitoring a); simpl; [|split; reflexivity].
  split; [reflexivity|]. now rewrite emitted_log, app_nil_r.
Qed.

Lemma stop_keeps_latch (a : App) :
  alerted (state_of (stop_monitoring a)) = alerted a /\
  emitted (state_of (stop_monitoring a)) = emitted a.
Proof.
  unfold stop_monitoring, bind, get, modify.
  destruct (monitoring a); simpl; [split; reflexivity|].
  split; [reflexivity|]. now rewrite emitted_log, app_nil_r.
Qed.

(** C5, as amended. [stop()] followed by [start()] leaves the latch as the
    stopped session left it; a session starts Armed only when the latch was
    clear, as it is in a newly built application. *)
Theorem restart_keeps_latch (a : App) (u i t : value) :
  alert_state (run [Stop; Start] a) = alert_state a /\
  monitoring (run [Stop; Start] a) = true /\
  alert_state (run [Start] (init u i t)) = Armed.
Proof.
  unfold run, alert_state; cbn [fold_left step].
  destruct (start_keeps_latch (state_of (stop_monitoring a))) as [E1 _].
  destruct (stop_keeps_latch a) as [E2 _].
  rewrite E1, E2. repeat split.
  unfold stop_monitoring, start_monitoring, bind, get, modify.
  destruct (monitoring a) eqn:Hm; simpl; rewrite ?Hm; reflexivity.
Qed.

(** C5 as stated fails: a session stopped with the latch set is followed by
    a session that begins Alerted, and a low reading in it raises no
    alert. *)
Lemma restart_counterexample :
  alert_state (run [Start; Turn (showing "199.0"); Stop] fresh) = Alerted /\
  alert_state (run [Start; Turn (showing "199.0"); Stop; Start] fresh)
  = Alerted /\
  emitted (run [Start; Turn (showing "199.0"); Stop; Start;
                Turn (showing "150.0")] fresh)
  = [dec 199 0].
Proof. repeat split; vm_compute; reflexivity. Qed.

(** ** The configuration slots *)

(** C7, as amended. [update_interval] fails for every input that does not
    parse as an integer: the [ValueError] of [int] reaches the caller, the
    lock is released, and the interval held before stays. *)
Theorem update_interval_rejects (s : str) (a : App) :
  PyInt.parse s = None ->
  update_interval s a = Abort (Exception ValueError) (unlock a) /\
  raised (update_interval s a) = Some ValueError /\
  interval (state_of (update_interval s a)) = interval a.
Proof.
  intros Hbad.
  assert (Heq : update_interval s a = Abort (Exception ValueError) (unlock a)).
  { unfold update_interval, try_finally, bind, lock, modify, lift, int_, raise.
    rewrite Hbad. reflexivity. }
  rewrite Heq. repeat split.
Qed.

Lemma update_interval_rejects_witness :
  update_interval (lit "1.5") fresh = Abort (Exception ValueError) (unlock fresh) /\
  raised (update_interval (lit "1.5") fresh) = Some ValueError /\
  interval (state_of (update_interval (lit "1.5") fresh)) = interval fresh.
Proof. apply update_interval_rejects; reflexivity. Defined.


(** C7 as stated fails: ["-5"] and ["0"] do not parse as positive integers,
    yet the slot raises nothing and stores them; the next pass of the loop
    then fails in [time.sleep]. *)
Lemma update_interval_counterexample :
  positive_integer (lit "-5") = false /\
  raised (update_interval (lit "-5") fresh) = None /\
  interval fresh = VInt 1 /\
  interval (state_of (update_interval (lit "-5") fresh)) = VInt (-5) /\
  positive_integer (lit "0") = false /\
  raised (update_interval (lit "0") fresh) = None /\
  interval (state_of (update_interval (lit "0") fresh)) = VInt 0 /\
  sleep (VInt (-5)) = Some ValueError.
Proof. repeat split; vm_compute; reflexivity. Qed.

(** A string that is not a float numeral leaves the threshold alone. *)
Lemma update_threshold_rejects (s : str) (a : App) :
  PyFloat.parse s = None ->
  update_threshold s a = Abort (Exception ValueError) (unlock a).
Proof.
  intros Hbad.
  unfold update_threshold, try_finally, bind, lock, modify, lift, float_, raise.
  rewrite Hbad. reflexivity.
Qed.

(** C8. [update_threshold("abc")] raises the [ValueError] of [float] to its
    caller and leaves the threshold held before, and everything else, as it
    was. *)
Theorem update_threshold_abc (a : App) :
  update_threshold (lit "abc") a = Abort (Exception ValueError) (unlock a) /\
  raised (update_threshold (lit "abc") a) = Some ValueError /\
  threshold (state_of (update_threshold (lit "abc") a)) = threshold a.
Proof.
  rewrite (update_threshold_rejects (lit "abc") a) by reflexivity.
  repeat split.
Qed.

(** ** From the page to the reading *)

(** [s[k:-1]] drops the first [k] characters and the last one. *)
Lemma slice_to_last (s : str) (k : nat) :
  slice s (Z.of_nat k) (-1) = skipn k (removelast s).
Proof.
  unfold slice, clamp, len.
  replace (Z.of_nat k <? 0) with false by (symmetry; apply Z.ltb_ge; lia).
  change (-1 <? 0) with true. cbv iota.
  destruct (Nat.lt_ge_cases k (List.length s)) as [Hin | Hout].
  - rewrite Z.min_l, Z.max_l by lia.
    rewrite Nat2Z.id, firstn_skipn_comm, removelast_firstn_len.
    do 2 f_equal. lia.
  - replace (Z.to_nat _) with 0%nat by lia.
    cbn [firstn]. symmetry. apply skipn_all2.
    rewrite removelast_firstn_len, length_firstn. lia.
Qed.

(** The generator of line 163 yields the first div whose text starts with
    the label. *)
Lemma next_labelled (before after : list node) (div : node) :
  forallb (fun d => negb (startswith (Bs4.text d) LABEL)) before = true ->
  startswith (Bs4.text div) LABEL = true ->
  next (labelled (before ++ div :: after)) = inr div.
Proof.
  intros Hbefore Hdiv. unfold labelled.
  induction before as [|d before IH]; cbn [app filter forallb] in *.
  - now rewrite Hdiv.
  - apply andb_prop in Hbefore as [Hd Hrest].
    apply negb_true_iff in Hd. rewrite Hd. now apply IH.
Qed.

(** C9, as amended. [extract] takes the divs of class [text-md] in document
    order and, of those, the first whose text starts with the label; it drops
    the first nine characters of that text (the eight of the label and the
    one after it, whatever it is) and the last one, and what [float] makes of
    the rest is the reading. *)
Theorem extract_reading (resp : response) (a : App)
        (before after : list node) (div : node) :
  Bs4.find_all (soup_of resp) Bs4.DIV Bs4.TEXT_MD = before ++ div :: after ->
  forallb (fun d => negb (startswith (Bs4.text d) LABEL)) before = true ->
  startswith (Bs4.text div) LABEL = true ->
  len LABEL = 8 /\
  extract resp a =
  match PyFloat.parse (skipn 9 (removelast (Bs4.text div))) with
  | Some x => Done x a
  | None => Abort (Exception ValueError) a
  end.
Proof.
  intros Hdivs Hbefore Hdiv. split; [reflexivity|].
  unfold extract. rewrite Hdivs.
  unfold bind at 1.
  replace (when _ (continue NoDivs) a) with (Done tt a)
    by (destruct before; reflexivity).
  unfold bind, lift. rewrite (next_labelled _ _ _ Hbefore Hdiv).
  cbn [ret when negb Bs4.truth].
  change 9 with (Z.of_nat 9). rewrite slice_to_last.
  unfold float_. destruct (PyFloat.parse _); reflexivity.
Qed.

Lemma extract_reading_witness :
  len LABEL = 8 /\
  extract (mkResponse 200 [Tag Bs4.DIV [Bs4.TEXT_MD] [Text (lit "Output")];
                           Tag Bs4.DIV [Bs4.TEXT_MD]
                             [Text (LABEL ++ [32] ++ lit "230.1" ++ UNIT)]])
          fresh =
  match PyFloat.parse
          (skipn 9 (removelast
             (Bs4.text (Tag Bs4.DIV [Bs4.TEXT_MD]
                          [Text (LABEL ++ [32] ++ lit "230.1" ++ UNIT)]))))
  with
  | Some x => Done x fresh
  | None => Abort (Exception ValueError) fresh
  end.
Proof.
  apply (extract_reading _ fresh
           [Tag Bs4.DIV [Bs4.TEXT_MD] [Text (lit "Output")]] []);
    reflexivity.
Defined.

(** C9 as stated fails on a page with no character between the label and the
    numeral: stripping exactly the label and the unit from the text leaves
    [220.5], but the code drops nine characters and reads [20.5]. *)
Lemma extract_counterexample :
  extract tight fresh = Done (dec 205 (-1)) fresh /\
  spec_extract tight fresh = Done (dec 2205 (-1)) fresh /\
  extract tight fresh <> spec_extract tight fresh.
Proof.
  assert (E1 : extract tight fresh = Done (dec 205 (-1)) fresh)
    by (vm_compute; reflexivity).
  assert (E2 : spec_extract tight fresh = Done (dec 2205 (-1)) fresh)
    by (vm_compute; reflexivity).
  rewrite E1, E2. repeat split. vm_compute. discriminate.
Qed.

(** Where the character after the label is white space, as on a page that
    shows the label, a space, the numeral and the unit, the two readings of
    the text agree: [float] skips the space the code cuts off. *)
Lemma extract_agrees_after_space (c : Z) (rest : str) :
  is_space c = true ->
  PyFloat.parse (slice (LABEL ++ c :: rest) 9 (-1))
  = PyFloat.parse (slice (LABEL ++ c :: rest) (len LABEL) (-1)).
Proof.
  intros Hc.
  change 9 with (Z.of_nat 9). change (len LABEL) with (Z.of_nat 8).
  rewrite !slice_to_last.
  rewrite removelast_app by discriminate.
  change (skipn 9 (LABEL ++ removelast (c :: rest)))
    with (skipn 1 (removelast (c :: rest))).
  change (skipn 8 (LABEL ++ removelast (c :: rest)))
    with (removelast (c :: rest)).
  destruct rest as [|r rest]; [reflexivity|].
  change (removelast (c :: r :: rest)) with (c :: removelast (r :: rest)).
  cbn [skipn]. unfold PyFloat.parse, strip.
  cbn [lstrip]. now rewrite Hc.
Qed.

(** ** One pass of the loop *)

Lemma body_unfold (net : network) (a : App) :
  body net a =
  (check (sleep (interval a)) ;;
   resp <- fetch (url a) net ;;
   voltage <- extract resp ;;
   hysteresis voltage (threshold a)) (unlock a).
Proof. reflexivity. Qed.

Lemma check_cases (r : option exn) (a : App) :
  check r a = match r with Some e => Abort (Exception e) a | None => Done tt a end.
Proof. destruct r; reflexivity. Qed.

Lemma fetch_cases (u : value) (net : network) (a : App) :
  (exists r, fetch u net a = Done r a) \/
  fetch u net a = Abort (Exception RequestError) a \/
  fetch u net a = Abort (Continue AfterTimeout) (log (Print None) a).
Proof.
  unfold fetch, try_except, bind, lift, check, requests_get, raise_for_status,
    ret, raise, modify, continue.
  destruct u; try (right; left; reflexivity).
  destruct net; cbn.
  - right; right; reflexivity.
  - right; left; reflexivity.
  - destruct ((400 <=? status) && (status <? 600)); cbn; eauto.
Qed.

Lemma extract_cases (resp : response) (a : App) :
  (exists v, extract resp a = Done v a) \/
  extract resp a = Abort (Continue NoDivs) a \/
  extract resp a = Abort (Exception StopIteration) a \/
  extract resp a = Abort (Exception ValueError) a.
Proof.
  unfold extract, bind, when, lift, next, float_, continue, ret, raise.
  destruct (Bs4.find_all _ _ _) as [|d ds]; [right; left; reflexivity|].
  destruct (labelled (d :: ds)) as [|x xs];
    [right; right; left; reflexivity|].
  cbn. destruct (PyFloat.parse _); eauto.
Qed.

(** The two tests of the latch succeed or fail together, and fail before
    anything is written. *)
Lemma hysteresis_cases (v : float) (thr : value) (a : App) :
  (exists e, hysteresis v thr a = Abort (Exception e) a) \/
  (exists a', hysteresis v thr a = Done tt a').
Proof.
  unfold hysteresis, bind, lift, add_half, le_value, when, modify, get, ret,
    raise.
  destruct thr as [| b | n | x | s |]; eauto.
  - destruct (PyFloat.ge _ _), (le_int _ _); cbv beta iota;
      try destruct (alerted _); cbv beta iota delta [andb negb]; eauto.
  - destruct (PyFloat.of_int n); eauto.
    destruct (PyFloat.ge _ _), (le_int _ _); cbv beta iota;
      try destruct (alerted _); cbv beta iota delta [andb negb]; eauto.
  - destruct (PyFloat.ge _ _), (PyFloat.le _ _); cbv beta iota;
      try destruct (alerted _); cbv beta iota delta [andb negb]; eauto.
Qed.

(** How the body of the [try] can be cut short: by an exception, at the
    [continue] after a timeout, or at the [continue] for a page without divs;
    never at the [continue] of line 165. *)
Lemma body_abort_cases (net : network) (a : App) (why : abort) (a' : App) :
  body net a = Abort why a' ->
  (exists e, why = Exception e /\ a' = unlock a) \/
  (why = Continue AfterTimeout /\ a' = log (Print None) (unlock a)) \/
  (why = Continue NoDivs /\ a' = unlock a).
Proof.
  rewrite body_unfold. unfold bind at 1. rewrite check_cases.
  destruct (sleep (interval a)) as [e|].
  { intros H; inversion H; eauto. }
  unfold bind at 1.
  destruct (fetch_cases (url a) net (unlock a)) as [[r Hf] | [Hf | Hf]];
    rewrite Hf; try (intros H; inversion H; now eauto).
  unfold bind at 1.
  destruct (extract_cases r (unlock a)) as [[v He] | [He | [He | He]]];
    rewrite He; try (intros H; inversion H; now eauto).
  destruct (hysteresis_cases v (threshold a) (unlock a)) as [[e Hh] | [a1 Hh]];
    rewrite Hh; intros H; inversion H; eauto.
Qed.

Lemma pass_never_raises (net : network) (a : App) :
  raised (pass net a) = None.
Proof.
  unfold pass, try_except, modify.
  destruct (body net a) as [x a' | [e | c] a']; reflexivity.
Qed.

(** *** What a pass leaves alone *)

Lemma untouched_refl (a : App) : untouched a a.
Proof. repeat split. Qed.

Lemma untouched_trans (a b c : App) :
  untouched a b -> untouched b c -> untouched a c.
Proof.
  unfold untouched. intros (H1 & H2 & H3 & H4 & H5) (K1 & K2 & K3 & K4 & K5).
  repeat split; congruence.
Qed.

Lemma keeps_ret {A} (x : A) : keeps (ret x).
Proof. intros a. apply untouched_refl. Qed.

Lemma keeps_raise {A} (e : exn) : keeps (@raise A e).
Proof. intros a. apply untouched_refl. Qed.

Lemma keeps_continue {A} (c : site) : keeps (@continue A c).
Proof. intros a. apply untouched_refl. Qed.

Lemma keeps_get {A} (f : App -> A) : keeps (get f).
Proof. intros a. apply untouched_refl. Qed.

Lemma keeps_modify (f : App -> App) :
  (forall a, untouched a (f a)) -> keeps (modify f).
Proof. intros Hf a. apply Hf. Qed.

Lemma keeps_bind {A B} (c : M A) (k : A -> M B) :
  keeps c -> (forall x, keeps (k x)) -> keeps (bind c k).
Proof.
  intros Hc Hk a. unfold bind. specialize (Hc a).
  destruct (c a) as [x a1 | w a1]; cbn [state_of] in *; [|exact Hc].
  eapply untouched_trans; [exact Hc | apply Hk].
Qed.

Lemma keeps_when (b : bool) (c : M unit) : keeps c -> keeps (when b c).
Proof. intros Hc. destruct b; [exact Hc | apply keeps_ret]. Qed.

Lemma keeps_check (r : option exn) : keeps (check r).
Proof. destruct r; [apply keeps_raise | apply keeps_ret]. Qed.

Lemma keeps_lift {A} (r : exn + A) : keeps (lift r).
Proof. destruct r; [apply keeps_raise | apply keeps_ret]. Qed.

Lemma keeps_try_except {A} (c : M A) (catches : exn -> bool)
      (h : exn -> M A) :
  keeps c -> (forall e, keeps (h e)) -> keeps (try_except c catches h).
Proof.
  intros Hc Hh a. unfold try_except. specialize (Hc a).
  destruct (c a) as [x a1 | [e | s] a1]; cbn [state_of] in *; try exact Hc.
  destruct (catches e); [|exact Hc].
  eapply untouched_trans; [exact Hc | apply Hh].
Qed.

Lemma untouched_set_mutex (b : bool) (a : App) : untouched a (set_mutex b a).
Proof. repeat split. Qed.

Lemma untouched_set_alerted (b : bool) (a : App) :
  untouched a (set_alerted b a).
Proof. repeat split. Qed.

Lemma untouched_log (e : effect) (a : App) : untouched a (log e a).
Proof. repeat split. Qed.

Create HintDb keeps.
#[local] Hint Resolve keeps_ret keeps_raise keeps_continue keeps_get
  keeps_when keeps_check keeps_lift untouched_set_mutex untouched_set_alerted
  untouched_log : keeps.

Ltac keeps_steps :=
  repeat match goal with
         | |- keeps (bind _ _) => apply keeps_bind; [|intros ?]
         | |- keeps (try_except _ _ _) => apply keeps_try_except; [|intros ?]
         | |- keeps (when _ _) => apply keeps_when
         | |- keeps (modify _) => apply keeps_modify; intros ?
         | |- _ => solve [auto with keeps]
         end.

Lemma keeps_hysteresis (v : float) (thr : value) : keeps (hysteresis v thr).
Proof. unfold hysteresis. keeps_steps. Qed.

Lemma keeps_extract (resp : response) : keeps (extract resp).
Proof. unfold extract. cbv zeta. keeps_steps. Qed.

Lemma keeps_fetch (u : value) (net : network) : keeps (fetch u net).
Proof. unfold fetch. keeps_steps. Qed.

(** A pass changes neither the running flag, nor the number of workers, nor
    the configuration. *)
Lemma keeps_pass (net : network) : keeps (pass net).
Proof.
  unfold pass, body, lock, unlock.
  pose proof keeps_hysteresis. pose proof keeps_extract.
  pose proof keeps_fetch.
  keeps_steps.
Qed.

(** *** What a pass depends on *)

Lemma same_inputs_refl (a : App) : same_inputs a a.
Proof. repeat split. Qed.

Lemma same_inputs_sym (a b : App) : same_inputs a b -> same_inputs b a.
Proof. unfold same_inputs. intuition congruence. Qed.

Lemma same_inputs_trans (a b c : App) :
  same_inputs a b -> same_inputs b c -> same_inputs a c.
Proof. unfold same_inputs. intuition congruence. Qed.

Lemma same_inputs_set_mutex (m : bool) (a : App) :
  same_inputs a (set_mutex m a).
Proof. repeat split. Qed.

Lemma same_inputs_print (p : option exn) (a : App) :
  same_inputs a (log (Print p) a).
Proof.
  repeat split. now rewrite emitted_log, app_nil_r.
Qed.

Lemma respects_ret {A} (x : A) : respects (ret x).
Proof. intros a b H. split; [reflexivity | exact H]. Qed.

Lemma respects_raise {A} (e : exn) : respects (@raise A e).
Proof. intros a b H. split; [reflexivity | exact H]. Qed.

Lemma respects_continue {A} (c : site) : respects (@continue A c).
Proof. intros a b H. split; [reflexivity | exact H]. Qed.

Lemma respects_get {A} (f : App -> A) :
  (forall a b, same_inputs a b -> f a = f b) -> respects (get f).
Proof. intros Hf a b H. split; [now apply Hf | exact H]. Qed.

Lemma respects_modify (f : App -> App) :
  (forall a b, same_inputs a b -> same_inputs (f a) (f b)) ->
  respects (modify f).
Proof. intros Hf a b H. split; [reflexivity | now apply Hf]. Qed.

Lemma respects_bind {A B} (c : M A) (k : A -> M B) :
  respects c -> (forall x, respects (k x)) -> respects (bind c k).
Proof.
  intros Hc Hk a b H. unfold bind. specialize (Hc a b H).
  destruct (c a) as [x a1 | w a1], (c b) as [y b1 | w' b1];
    cbn [agree] in *; try contradiction.
  - destruct Hc as [-> Hab]. now apply Hk.
  - exact Hc.
Qed.

Lemma respects_when (b : bool) (c : M unit) :
  respects c -> respects (when b c).
Proof. intros Hc. destruct b; [exact Hc | apply respects_ret]. Qed.

Lemma respects_check (r : option exn) : respects (check r).
Proof. destruct r; [apply respects_raise | apply respects_ret]. Qed.

Lemma respects_lift {A} (r : exn + A) : respects (lift r).
Proof. destruct r; [apply respects_raise | apply respects_ret]. Qed.

Lemma respects_try_except {A} (c : M A) (catches : exn -> bool)
      (h : exn -> M A) :
  respects c -> (forall e, respects (h e)) ->
  respects (try_except c catches h).
Proof.
  intros Hc Hh a b H. unfold try_except. specialize (Hc a b H).
  destruct (c a) as [x a1 | [e | s] a1], (c b) as [y b1 | [e' | s'] b1];
    cbn [agree] in *; try contradiction; try exact Hc;
    try (destruct Hc as [Hw _]; discriminate Hw).
  destruct Hc as [Hw Hab]. injection Hw as <-.
  destruct (catches e); [now apply Hh | split; [reflexivity | exact Hab]].
Qed.

Lemma same_inputs_under_set_mutex (m : bool) (a b : App) :
  same_inputs a b -> same_inputs (set_mutex m a) (set_mutex m b).
Proof. intros H. exact H. Qed.

Lemma same_inputs_under_set_alerted (l : bool) (a b : App) :
  same_inputs a b -> same_inputs (set_alerted l a) (set_alerted l b).
Proof.
  intros (H1 & H2 & H3 & H4 & H5). repeat split; assumption.
Qed.

Lemma same_inputs_under_log (e : effect) (a b : App) :
  same_inputs a b -> same_inputs (log e a) (log e b).
Proof.
  intros (H1 & H2 & H3 & H4 & H5). repeat split; try assumption.
  rewrite !emitted_log. now f_equal.
Qed.

Lemma same_url (a b : App) : same_inputs a b -> url a = url b.
Proof. now intros (H1 & _). Qed.
Lemma same_interval (a b : App) : same_inputs a b -> interval a = interval b.
Proof. now intros (_ & H2 & _). Qed.
Lemma same_threshold (a b : App) :
  same_inputs a b -> threshold a = threshold b.
Proof. now intros (_ & _ & H3 & _). Qed.
Lemma same_alerted (a b : App) : same_inputs a b -> alerted a = alerted b.
Proof. now intros (_ & _ & _ & H4 & _). Qed.

Create HintDb respects.
#[local] Hint Resolve respects_ret respects_raise respects_continue
  respects_check respects_lift same_inputs_under_set_mutex
  same_inputs_under_set_alerted same_inputs_under_log
  same_url same_interval same_threshold same_alerted : respects.

Ltac respects_steps :=
  repeat match goal with
         | |- respects (bind _ _) => apply respects_bind; [|intros ?]
         | |- respects (try_except _ _ _) =>
             apply respects_try_except; [|intros ?]
         | |- respects (when _ _) => apply respects_when
         | |- respects (modify _) => apply respects_modify; intros ? ? ?
         | |- respects (get _) => apply respects_get; intros ? ? ?
         | |- _ => solve [auto with respects]
         end.

Lemma respects_hysteresis (v : float) (thr : value) :
  respects (hysteresis v thr).
Proof. unfold hysteresis. respects_steps. Qed.

Lemma respects_extract (resp : response) : respects (extract resp).
Proof. unfold extract. cbv zeta. respects_steps. Qed.

Lemma respects_fetch (u : value) (net : network) : respects (fetch u net).
Proof. unfold fetch. respects_steps. Qed.

(** What a pass does to the latch and which alerts it sends depend on the
    configuration, the latch and the answer of the network only. *)
Lemma respects_pass (net : network) : respects (pass net).
Proof.
  unfold pass, body, lock, unlock.
  pose proof respects_hysteresis. pose proof respects_extract.
  pose proof respects_fetch.
  respects_steps.
Qed.

(** A pass whose body is cut short leaves the latch and the alerts sent as
    they were. *)
Lemma cut_short_is_quiet (net : network) (a : App) (why : abort) (a' : App) :
  body net a = Abort why a' ->
  same_inputs a (state_of (pass net a)).
Proof.
  intros Hbody. unfold pass, try_except, modify. rewrite Hbody.
  apply body_abort_cases in Hbody
    as [(e & -> & ->) | [(-> & ->) | (-> & ->)]]; cbn [state_of].
  - eapply same_inputs_trans;
      [apply same_inputs_set_mutex | apply same_inputs_print].
  - eapply same_inputs_trans;
      [apply same_inputs_set_mutex | apply same_inputs_print].
  - apply same_inputs_set_mutex.
Qed.

(** The loop is left only when the flag is found down. *)
Lemma loop_goes_on (nets : list network) (a : App) :
  monitoring a = true ->
  snd (monitor_voltage nets a) = false /\
  monitoring (fst (monitor_voltage nets a)) = true.
Proof.
  revert a. induction nets as [|net nets IH]; intros a Hon;
    cbn [monitor_voltage]; rewrite Hon.
  - split; [reflexivity | exact Hon].
  - apply IH. destruct (keeps_pass net a) as (Hm & _). congruence.
Qed.

(** No action but [Stop] lowers the flag or ends a worker. *)
Lemma only_stop_stops (a : App) (act : action) :
  act <> Stop ->
  monitoring a = true ->
  monitoring (step a act) = true /\ (threads a <= threads (step a act))%nat.
Proof.
  intros Hact Hon. destruct act as [| | s | s | s | net];
    try contradiction; cbn [step].
  - unfold start_monitoring, bind, get, modify. rewrite Hon.
    cbn. split; [exact Hon | lia].
  - cbn. split; [exact Hon | lia].
  - unfold update_interval, try_finally, bind, lock, modify, lift, int_.
    destruct (PyInt.parse s); cbn; split; try exact Hon; lia.
  - unfold update_threshold, try_finally, bind, lock, modify, lift, float_.
    destruct (PyFloat.parse s); cbn; split; try exact Hon; lia.
  - unfold turn. destruct (threads a) as [|n] eqn:Hth; [split; [exact Hon|lia]|].
    rewrite Hon. destruct (keeps_pass net a) as (Hm & Ht & _).
    split; [congruence | lia].
Qed.

Lemma agree_states {A} (r1 r2 : outcome A) :
  agree r1 r2 -> same_inputs (state_of r1) (state_of r2).
Proof.
  destruct r1, r2; cbn [agree state_of]; try contradiction; now intros [_ H].
Qed.

Lemma same_alert_state (a b : App) :
  same_inputs a b -> alert_state a = alert_state b /\ emitted a = emitted b.
Proof.
  intros (_ & _ & _ & Hal & Hem). unfold alert_state. now rewrite Hal.
Qed.

(** C6. A pass whose body is cut short, by a failed request, a failed
    extraction or any other exception, lets nothing out of the loop, leaves
    the latch, the alerts sent, the running flag, the workers and the
    configuration as they were, so that the next pass decides as it would
    have without it; the loop goes on, and among the actions only [Stop]
    lowers the flag. *)
Theorem failed_pass_is_local (bad next_ : network) (a : App) (why : abort)
        (a1 : App) (nets : list network) (act : action) :
  body bad a = Abort why a1 ->
  monitoring a = true ->
  act <> Stop ->
  raised (pass bad a) = None /\
  alert_state (state_of (pass bad a)) = alert_state a /\
  emitted (state_of (pass bad a)) = emitted a /\
  untouched a (state_of (pass bad a)) /\
  alert_state (state_of (pass next_ (state_of (pass bad a))))
  = alert_state (state_of (pass next_ a)) /\
  emitted (state_of (pass next_ (state_of (pass bad a))))
  = emitted (state_of (pass next_ a)) /\
  snd (monitor_voltage (bad :: nets) a) = false /\
  monitoring (step a act) = true /\
  (threads a <= threads (step a act))%nat.
Proof.
  intros Hbody Hon Hact.
  pose proof (cut_short_is_quiet _ _ _ _ Hbody) as Hquiet.
  destruct (same_alert_state _ _ Hquiet) as [Hstate Hsent].
  pose proof (agree_states _ _ (respects_pass next_ _ _ Hquiet)) as Hnext.
  destruct (same_alert_state _ _ Hnext) as [Hstate' Hsent'].
  destruct (loop_goes_on (bad :: nets) a Hon) as [Hloop _].
  destruct (only_stop_stops a act Hact Hon) as [Hflag Hworkers].
  repeat split; try congruence; try apply keeps_pass.
  apply pass_never_raises.
Qed.

Lemma failed_pass_is_local_witness :
  raised (pass TimedOut started) = None /\
  alert_state (state_of (pass TimedOut started)) = alert_state started /\
  emitted (state_of (pass TimedOut started)) = emitted started /\
  untouched started (state_of (pass TimedOut started)) /\
  alert_state (state_of (pass (showing "199.0")
                              (state_of (pass TimedOut started))))
  = alert_state (state_of (pass (showing "199.0") started)) /\
  emitted (state_of (pass (showing "199.0")
                          (state_of (pass TimedOut started))))
  = emitted (state_of (pass (showing "199.0") started)) /\
  snd (monitor_voltage [TimedOut; showing "199.0"] started) = false /\
  monitoring (step started (Turn Unreachable)) = true /\
  (threads started <= threads (step started (Turn Unreachable)))%nat.
Proof.
  apply (failed_pass_is_local TimedOut (showing "199.0") started
           (Continue AfterTimeout) (log (Print None) (unlock started))
           [showing "199.0"] (Turn Unreachable)).
  - reflexivity.
  - reflexivity.
  - discriminate.
Defined.

(** C10. Where the page has divs of the class but none showing the label,
    [next] raises [StopIteration] out of the body, the handler of the loop
    prints it, and the latch and the alerts sent stay as they were; the
    [continue] of line 165 is reached on no page and in no state. *)
Theorem missing_label (net : network) (a : App) (u : str) (st : Z)
        (doc : list node) :
  url a = VStr u ->
  sleep (interval a) = None ->
  net = Responded st doc ->
  raise_for_status (mkResponse st doc) = None ->
  Bs4.find_all doc Bs4.DIV Bs4.TEXT_MD <> [] ->
  labelled (Bs4.find_all doc Bs4.DIV Bs4.TEXT_MD) = [] ->
  (forall net' a0 a1, body net' a0 <> Abort (Continue NoVoltage) a1) /\
  body net a = Abort (Exception StopIteration) (unlock a) /\
  pass net a = Done tt (log (Print (Some StopIteration)) (unlock a)) /\
  alert_state (state_of (pass net a)) = alert_state a /\
  emitted (state_of (pass net a)) = emitted a.
Proof.
  intros Hurl Hsleep -> Hstatus Hdivs Hnone.
  assert (Hdead : forall net' a0 a1,
             body net' a0 <> Abort (Continue NoVoltage) a1).
  { intros net' a0 a1 H.
    apply body_abort_cases in H
      as [(e & H & _) | [(H & _) | (H & _)]]; discriminate H. }
  assert (Hbody : body (Responded st doc) a
                  = Abort (Exception StopIteration) (unlock a)).
  { rewrite body_unfold. unfold bind at 1. rewrite check_cases, Hsleep, Hurl.
    unfold bind at 1.
    assert (Hfetch : fetch (VStr u) (Responded st doc) (unlock a)
                     = Done (mkResponse st doc) (unlock a)).
    { unfold fetch, try_except, bind, lift, check, requests_get, ret.
      rewrite Hstatus. reflexivity. }
    rewrite Hfetch. unfold bind at 1.
    unfold extract. cbv zeta. cbn [soup_of]. rewrite Hnone.
    destruct (Bs4.find_all doc Bs4.DIV Bs4.TEXT_MD); [contradiction|].
    reflexivity. }
  assert (Hpass : pass (Responded st doc) a
                  = Done tt (log (Print (Some StopIteration)) (unlock a))).
  { unfold pass, try_except. rewrite Hbody. reflexivity. }
  repeat split; try assumption; rewrite Hpass; cbn [state_of].
  - reflexivity.
  - now rewrite emitted_log, app_nil_r.
Qed.

Lemma missing_label_witness :
  (forall net' a0 a1, body net' a0 <> Abort (Continue NoVoltage) a1) /\
  body (Responded 200 unlabelled) started
  = Abort (Exception StopIteration) (unlock started) /\
  pass (Responded 200 unlabelled) started
  = Done tt (log (Print (Some StopIteration)) (unlock started)) /\
  alert_state (state_of (pass (Responded 200 unlabelled) started))
  = alert_state started /\
  emitted (state_of (pass (Responded 200 unlabelled) started))
  = emitted started.
Proof.
  apply (missing_label (Responded 200 unlabelled) started
           (lit "http://inverter.local/status") 200 unlabelled).
  - reflexivity.
  - reflexivity.
  - reflexivity.
  - reflexivity.
  - vm_compute. discriminate.
  - reflexivity.
Defined.

(** ** The model at work *)

(** The decimal numerals of the scenarios, as [float] reads them. *)
Example float_reads_numerals :
  float_ (lit "0.1") = inr (S754_finite false 7205759403792794 (-56)) /\
  float_ (lit " 199.5") = inr (dec 1995 (-1)) /\
  float_ (lit "1_000.5e-1") = inr (dec 10005 (-2)) /\
  float_ (lit "-inf") = inr (S754_infinity true) /\
  float_ (lit "1e400") = inr (S754_infinity false) /\
  float_ (lit "abc") = inl ValueError /\
  float_ (lit "1__0") = inl ValueError /\
  float_ (lit "") = inl ValueError.
Proof. repeat split; vm_compute; reflexivity. Qed.

Example int_reads_numerals :
  int_ (lit " 30 ") = inr 30 /\
  int_ (lit "+1_000") = inr 1000 /\
  int_ (lit "-5") = inr (-5) /\
  int_ (lit "1.5") = inl ValueError /\
  int_ (lit "0x10") = inl ValueError /\
  int_ (lit "") = inl ValueError.
Proof. repeat split; vm_compute; reflexivity. Qed.

(** The scenario of C4 on pages, through the whole loop, with a timeout in
    the middle: one alert, for 199.0, and the loop still running. *)
Example scenario_200_on_pages :
  let end_ :=
    monitor_voltage [showing "205.0"; showing "199.0"; TimedOut;
                     showing "199.5"; showing "200.5"] started in
  snd end_ = false /\
  alert_state (fst end_) = Armed /\
  trace (fst end_) = [Emit (dec 199 0); Print None] /\
  map alert_state
      (states [Turn (showing "205.0"); Turn (showing "199.0"); Turn TimedOut;
               Turn (showing "199.5"); Turn (showing "200.5")] started)
  = [Armed; Armed; Alerted; Alerted; Alerted; Armed].
Proof. repeat split; vm_compute; reflexivity. Qed.

(** After [Stop], the worker's next turn takes it out of the loop. *)
Example stop_ends_the_worker :
  threads (run [Stop] started) = 1%nat /\
  threads (run [Stop; Turn (showing "199.0")] started) = 0%nat /\
  emitted (run [Stop; Turn (showing "199.0")] started) = [].
Proof. repeat split; vm_compute; reflexivity. Qed.

(** * Further properties of the code *)

(** ** The latch on any kind of threshold *)

(** The two tests on a threshold that is a number of any kind: a float, or
    the int or bool that [config.json] can hold. *)
Lemma hysteresis_number (v : float) (thr : value) (limit : float) (a : App) :
  add_half thr = inr limit ->
  exists low,
    le_value v thr = inr low /\
    hysteresis v thr a =
    let a1 := if PyFloat.ge v limit then set_alerted false a else a in
    if low && negb (alerted a1)
    then Done tt (log (Emit v) (set_alerted true a1))
    else Done tt a1.
Proof.
  intros Hlimit.
  assert (Hlow : exists low, le_value v thr = inr low).
  { destruct thr; cbn [add_half] in Hlimit; try discriminate;
      cbn [le_value]; eauto. }
  destruct Hlow as [low Hlow]. exists low. split; [exact Hlow|].
  unfold hysteresis, bind, lift, when, modify, get, ret.
  rewrite Hlimit, Hlow.
  destruct (PyFloat.ge v limit); cbv beta iota;
    destruct low; cbn [andb]; try reflexivity;
    destruct (alerted a) eqn:Hal; cbn [negb alerted set_alerted];
    try rewrite Hal; reflexivity.
Qed.

(** What one run of lines 169 to 174 can do to the object. *)
Lemma hysteresis_outcomes (v : float) (thr : value) (a : App) :
  (exists e, hysteresis v thr a = Abort (Exception e) a) \/
  hysteresis v thr a = Done tt a \/
  hysteresis v thr a = Done tt (set_alerted false a) \/
  hysteresis v thr a = Done tt (log (Emit v) (set_alerted true a)).
Proof.
  destruct (add_half thr) as [e | limit] eqn:Hlimit.
  - left. exists e. unfold hysteresis, bind, lift. now rewrite Hlimit.
  - right.
    destruct (hysteresis_number v thr limit a Hlimit) as (low & _ & ->).
    cbv zeta.
    destruct (PyFloat.ge v limit), low; cbn [andb alerted set_alerted negb];
      auto; destruct (alerted a); cbn [negb]; auto.
Qed.

(** X1.  A reading that is not a number, or a threshold that is not one,
    decides nothing: every comparison with a NaN is false, so the latch
    stays as it is and nothing is emitted, in either state. *)
Theorem nan_decides_nothing (v t : float) (a : App) :
  PyFloat.is_nan v = true \/ PyFloat.is_nan t = true ->
  hysteresis v (VFloat t) a = Done tt a.
Proof.
  intros Hnan. rewrite hysteresis_float. cbv zeta.
  assert (Hge : PyFloat.ge v (PyFloat.add t PyFloat.half) = false).
  { destruct Hnan as [H | H].
    - destruct v; try discriminate H.
      unfold PyFloat.ge, SFleb.
      now destruct (PyFloat.add t PyFloat.half).
    - destruct t; try discriminate H. reflexivity. }
  assert (Hle : PyFloat.le v t = false).
  { destruct Hnan as [H | H].
    - destruct v; try discriminate H. reflexivity.
    - destruct t; try discriminate H. unfold PyFloat.le, SFleb.
      now destruct v. }
  now rewrite Hge, Hle.
Qed.

Lemma nan_decides_nothing_witness :
  hysteresis S754_nan (VFloat (dec 200 0)) fresh = Done tt fresh /\
  hysteresis (dec 150 0) (VFloat S754_nan) latched = Done tt latched.
Proof.
  split; apply nan_decides_nothing; [left | right]; reflexivity.
Defined.





(** ** What a pass can do *)

(** A body that runs to its end ends in the latch. *)
Lemma body_done (net : network) (a a' : App) :
  body net a = Done tt a' ->
  exists v, hysteresis v (threshold a) (unlock a) = Done tt a'.
Proof.
  rewrite body_unfold. unfold bind at 1. rewrite check_cases.
  destruct (sleep (interval a)); [discriminate|].
  unfold bind at 1.
  destruct (fetch_cases (url a) net (unlock a)) as [[r Hf] | [Hf | Hf]];
    rewrite Hf; try discriminate.
  unfold bind at 1.
  destruct (extract_cases r (unlock a)) as [[v He] | [He | [He | He]]];
    rewrite He; try discriminate.
  intros H. now exists v.
Qed.

(** The four things a pass can do to the object. *)
Lemma pass_shapes (net : network) (a : App) :
  state_of (pass net a) = unlock a \/
  (exists p, state_of (pass net a) = log (Print p) (unlock a)) \/
  state_of (pass net a) = set_alerted false (unlock a) \/
  (exists v, state_of (pass net a)
             = log (Emit v) (set_alerted true (unlock a))).
Proof.
  unfold pass, try_except, modify.
  destruct (body net a) as [[] a' | why a'] eqn:Hbody.
  - apply body_done in Hbody as [v Hv].
    destruct (hysteresis_outcomes v (threshold a) (unlock a))
      as [[e H] | [H | [H | H]]]; rewrite H in Hv; inversion Hv; subst;
      cbn [state_of]; eauto.
  - apply body_abort_cases in Hbody
      as [(e & -> & ->) | [(-> & ->) | (-> & ->)]]; cbn [state_of]; eauto.
Qed.

Lemma pass_latch_and_alerts (net : network) (a : App) :
  (alerted (state_of (pass net a)) = alerted a /\
   emitted (state_of (pass net a)) = emitted a) \/
  (alerted (state_of (pass net a)) = false /\
   emitted (state_of (pass net a)) = emitted a) \/
  (exists v, alerted (state_of (pass net a)) = true /\
             emitted (state_of (pass net a)) = emitted a ++ [v]).
Proof.
  destruct (pass_shapes net a) as [H | [[p H] | [H | [v H]]]]; rewrite H.
  - left; split; reflexivity.
  - left; split; [reflexivity|]. now rewrite emitted_log, app_nil_r.
  - right; left; split; reflexivity.
  - right; right. exists v. split; [reflexivity|]. now rewrite emitted_log.
Qed.

(** X3.  Whatever the network answers and whatever the configuration holds,
    a pass of the loop adds at most one entry to what the application has
    done: one printed line, or one alert, and an alert only together with
    setting the latch.  Nothing done before is taken back. *)
Theorem pass_adds_at_most_one (net : network) (a : App) :
  exists news,
    trace (state_of (pass net a)) = trace a ++ news /\
    (List.length news <= 1)%nat /\
    (forall v, In (Emit v) news ->
               news = [Emit v] /\ alerted (state_of (pass net a)) = true) /\
    (forall r, ~ In (Information r) news).
Proof.
  destruct (pass_shapes net a) as [H | [[p H] | [H | [v H]]]]; rewrite H.
  - exists []. cbn. rewrite app_nil_r. repeat split; auto; contradiction.
  - exists [Print p]. cbn. repeat split; auto.
    + destruct H0 as [H0 | []]; discriminate H0.
    + destruct H0 as [H0 | []]; discriminate H0.
    + intros r [H0 | []]; discriminate H0.
  - exists []. cbn. rewrite app_nil_r. repeat split; auto; contradiction.
  - exists [Emit v]. cbn. repeat split; auto.
    + destruct H0 as [H0 | []]. now inversion H0.
    + intros r [H0 | []]; discriminate H0.
Qed.

(** ** Sessions and the latch *)

Lemma slot_keeps_latch (a : App) (act : action) :
  match act with SetUrl _ | SetInterval _ | SetThreshold _ => True
            | _ => False end ->
  alerted (step a act) = alerted a /\ emitted (step a act) = emitted a.
Proof.
  destruct act as [| | s | s | s |]; try contradiction; intros _; cbn [step].
  - split; reflexivity.
  - unfold update_interval, try_finally, bind, lock, modify, lift, int_.
    destruct (PyInt.parse s); split; reflexivity.
  - unfold update_threshold, try_finally, bind, lock, modify, lift, float_.
    destruct (PyFloat.parse s); split; reflexivity.
Qed.

(** The latch is set only when an alert has gone out. *)
Lemma step_latch_means_alert (a : App) (act : action) :
  (alerted a = true -> emitted a <> []) ->
  alerted (step a act) = true -> emitted (step a act) <> [].
Proof.
  intros Hinv.
  destruct act as [| | s | s | s | net].
  - cbn [step]. destruct (start_keeps_latch a) as [-> ->]. exact Hinv.
  - cbn [step]. destruct (stop_keeps_latch a) as [-> ->]. exact Hinv.
  - destruct (slot_keeps_latch a (SetUrl s) I) as [-> ->]. exact Hinv.
  - destruct (slot_keeps_latch a (SetInterval s) I) as [-> ->]. exact Hinv.
  - destruct (slot_keeps_latch a (SetThreshold s) I) as [-> ->]. exact Hinv.
  - cbn [step]. unfold turn. destruct (threads a); [exact Hinv|].
    destruct (monitoring a); [|exact Hinv].
    destruct (pass_latch_and_alerts net a)
      as [[-> ->] | [[-> _] | (v & _ & ->)]].
    + exact Hinv.
    + discriminate.
    + intros _ H. now destruct (emitted a).
Qed.

(** X4.  In every state the application reaches from its construction, by
    any sequence of user actions and worker turns, a set latch means an
    alert has been emitted: the latch is never set silently. *)
Theorem latch_means_alert (acts : list action) (u i t : value) :
  alerted (run acts (init u i t)) = true ->
  emitted (run acts (init u i t)) <> [].
Proof.
  assert (Hgen : forall a, (alerted a = true -> emitted a <> []) ->
                           alerted (run acts a) = true ->
                           emitted (run acts a) <> []).
  { unfold run. induction acts as [|act acts IH]; intros a Hinv;
      cbn [fold_left]; [exact Hinv|].
    apply IH. now apply step_latch_means_alert. }
  apply Hgen. cbn. discriminate.
Qed.

Lemma latch_means_alert_witness :
  emitted (run [Start; SetThreshold (lit "230"); Turn (showing "229.5")]
               (init (VStr (lit "http://inverter.local/status")) (VInt 1)
                     (VFloat (dec 200 0))))
  <> [].
Proof. apply latch_means_alert. reflexivity. Defined.

(** ** Passes, from the answer of the network to the latch *)

(** A pass that gets as far as the request, on a usable URL. *)
Lemma pass_after_sleep (net : network) (a : App) (u : str) :
  url a = VStr u ->
  sleep (interval a) = None ->
  body net a =
  (resp <- fetch (VStr u) net ;;
   voltage <- extract resp ;;
   hysteresis voltage (threshold a)) (unlock a).
Proof.
  intros Hurl Hsleep. rewrite body_unfold. unfold bind at 1.
  now rewrite check_cases, Hsleep, Hurl.
Qed.

Lemma fetch_answer (u : str) (st : Z) (doc : list node) (a : App) :
  fetch (VStr u) (Responded st doc) a =
  if (400 <=? st) && (st <? 600)
  then Abort (Exception RequestError) a
  else Done (mkResponse st doc) a.
Proof.
  unfold fetch, try_except, bind, lift, check, requests_get, raise_for_status,
    ret, raise.
  cbn [status_code]. destruct ((400 <=? st) && (st <? 600)); reflexivity.
Qed.

Lemma extract_first_labelled (resp : response) (a : App)
      (before after : list node) (div : node) :
  Bs4.find_all (soup_of resp) Bs4.DIV Bs4.TEXT_MD = before ++ div :: after ->
  forallb (fun d => negb (startswith (Bs4.text d) LABEL)) before = true ->
  startswith (Bs4.text div) LABEL = true ->
  extract resp a = lift (float_ (skipn 9 (removelast (Bs4.text div)))) a.
Proof.
  intros Hdivs Hbefore Hdiv.
  unfold extract. rewrite Hdivs.
  unfold bind at 1.
  replace (when _ (continue NoDivs) a) with (Done tt a)
    by (destruct before; reflexivity).
  unfold bind, lift at 1. rewrite (next_labelled _ _ _ Hbefore Hdiv).
  cbn [ret when negb Bs4.truth].
  change 9 with (Z.of_nat 9). now rewrite slice_to_last.
Qed.

(** X5.  End to end: on a page that answers with a status below 400 or from
    600 up, whose first labelled div of class [text-md] reads as a number at
    or below a float threshold, a pass that finds the latch clear sets it and
    emits exactly one alert carrying the number read from the page. *)
Theorem low_page_alerts (a : App) (u : str) (st : Z) (doc : list node)
        (before after : list node) (div : node) (v t : float) :
  url a = VStr u ->
  sleep (interval a) = None ->
  (400 <=? st) && (st <? 600) = false ->
  Bs4.find_all doc Bs4.DIV Bs4.TEXT_MD = before ++ div :: after ->
  forallb (fun d => negb (startswith (Bs4.text d) LABEL)) before = true ->
  startswith (Bs4.text div) LABEL = true ->
  PyFloat.parse (skipn 9 (removelast (Bs4.text div))) = Some v ->
  threshold a = VFloat t ->
  PyFloat.le v t = true ->
  alerted a = false ->
  pass (Responded st doc) a
  = Done tt (log (Emit v) (set_alerted true (unlock a))).
Proof.
  intros Hurl Hsleep Hst Hdivs Hbefore Hdiv Hv Hthr Hle Hoff.
  unfold pass, try_except.
  rewrite (pass_after_sleep _ _ _ Hurl Hsleep).
  unfold bind at 1. rewrite fetch_answer, Hst.
  unfold bind at 1.
  rewrite (extract_first_labelled (mkResponse st doc) _ before after div)
    by assumption.
  unfold lift, float_. rewrite Hv, Hthr. cbn [ret].
  rewrite hysteresis_float. cbv zeta.
  destruct (PyFloat.ge v (PyFloat.add t PyFloat.half));
    rewrite Hle; cbn [alerted set_alerted unlock set_mutex andb negb];
    rewrite ?Hoff; reflexivity.
Qed.

Lemma low_page_alerts_witness :
  pass (Responded 200
          [Tag Bs4.DIV [Bs4.TEXT_MD] [Text (lit "Output")];
           Tag Bs4.DIV [Bs4.TEXT_MD]
             [Text (LABEL ++ [32] ++ lit "199.5" ++ UNIT)]])
       started
  = Done tt (log (Emit (dec 1995 (-1))) (set_alerted true (unlock started))).
Proof.
  apply (low_page_alerts started (lit "http://inverter.local/status") 200 _
           [Tag Bs4.DIV [Bs4.TEXT_MD] [Text (lit "Output")]] []
           (Tag Bs4.DIV [Bs4.TEXT_MD]
              [Text (LABEL ++ [32] ++ lit "199.5" ++ UNIT)])
           (dec 1995 (-1)) (dec 200 0)); reflexivity.
Defined.

(** X6.  A response with a status from 400 to 599 is an error of the pass:
    it is printed by the catch-all handler and the page is not looked at,
    whatever it shows.  Any other status, 2xx or not, has its page read as a
    200 has. *)
Theorem status_decides (a : App) (u : str) (st : Z) (doc : list node) :
  url a = VStr u ->
  sleep (interval a) = None ->
  pass (Responded st doc) a =
  if (400 <=? st) && (st <? 600)
  then Done tt (log (Print (Some RequestError)) (unlock a))
  else pass (Responded 200 doc) a.
Proof.
  intros Hurl Hsleep. unfold pass, try_except.
  rewrite !(pass_after_sleep _ _ _ Hurl Hsleep).
  unfold bind at 1 3. rewrite !fetch_answer.
  change ((400 <=? 200) && (200 <? 600)) with false. cbv iota.
  destruct ((400 <=? st) && (st <? 600)); [reflexivity|].
  unfold bind, extract. cbn [soup_of]. reflexivity.
Qed.

Lemma status_decides_witness :
  pass (Responded 503 [Tag Bs4.DIV [Bs4.TEXT_MD]
                         [Text (LABEL ++ [32] ++ lit "150.0" ++ UNIT)]])
       started =
  if (400 <=? 503) && (503 <? 600)
  then Done tt (log (Print (Some RequestError)) (unlock started))
  else pass (Responded 200 [Tag Bs4.DIV [Bs4.TEXT_MD]
                              [Text (LABEL ++ [32] ++ lit "150.0" ++ UNIT)]])
            started.
Proof.
  apply (status_decides started (lit "http://inverter.local/status"));
    reflexivity.
Defined.

(** X7.  The two ways a request fails are told apart: a timeout prints its
    own line from the inner handler and goes on at the [continue]; any other
    failure of the request reaches the catch-all handler.  Either way the
    object is otherwise as it was. *)
Theorem request_failures (a : App) (u : str) :
  url a = VStr u ->
  sleep (interval a) = None ->
  pass TimedOut a = Abort (Continue AfterTimeout) (log (Print None) (unlock a))
  /\
  pass Unreachable a = Done tt (log (Print (Some RequestError)) (unlock a)).
Proof.
  intros Hurl Hsleep. unfold pass, try_except.
  rewrite !(pass_after_sleep _ _ _ Hurl Hsleep). split; reflexivity.
Qed.

Lemma request_failures_witness :
  pass TimedOut started
  = Abort (Continue AfterTimeout) (log (Print None) (unlock started)) /\
  pass Unreachable started
  = Done tt (log (Print (Some RequestError)) (unlock started)).
Proof.
  apply (request_failures started (lit "http://inverter.local/status"));
    reflexivity.
Defined.

(** X8.  A page with no div of class [text-md] ends the pass without a
    word: nothing is printed, nothing emitted, the latch stays. *)
Theorem no_divs_is_silent (a : App) (u : str) (st : Z) (doc : list node) :
  url a = VStr u ->
  sleep (interval a) = None ->
  (400 <=? st) && (st <? 600) = false ->
  Bs4.find_all doc Bs4.DIV Bs4.TEXT_MD = [] ->
  pass (Responded st doc) a = Abort (Continue NoDivs) (unlock a) /\
  trace (state_of (pass (Responded st doc) a)) = trace a.
Proof.
  intros Hurl Hsleep Hst Hdivs.
  assert (H : pass (Responded st doc) a = Abort (Continue NoDivs) (unlock a)).
  { unfold pass, try_except.
    rewrite (pass_after_sleep _ _ _ Hurl Hsleep).
    unfold bind at 1. rewrite fetch_answer, Hst.
    unfold bind at 1. unfold extract. cbn [soup_of]. rewrite Hdivs.
    reflexivity. }
  rewrite H. split; reflexivity.
Qed.

Lemma no_divs_is_silent_witness :
  pass (Responded 200 [Tag (lit "span") [Bs4.TEXT_MD]
                         [Text (LABEL ++ [32] ++ lit "150.0" ++ UNIT)]])
       started
  = Abort (Continue NoDivs) (unlock started) /\
  trace (state_of
           (pass (Responded 200
                    [Tag (lit "span") [Bs4.TEXT_MD]
                       [Text (LABEL ++ [32] ++ lit "150.0" ++ UNIT)]])
                 started))
  = trace started.
Proof.
  apply (no_divs_is_silent started (lit "http://inverter.local/status"));
    reflexivity.
Defined.

(** X9.  A labelled div whose text, less its first nine characters and its
    last, is not a float numeral (the label alone, a number with a comma)
    ends the pass in the [ValueError] of [float]: printed, nothing emitted,
    the latch as it was. *)
Theorem bad_number_is_printed (a : App) (u : str) (st : Z) (doc : list node)
        (before after : list node) (div : node) :
  url a = VStr u ->
  sleep (interval a) = None ->
  (400 <=? st) && (st <? 600) = false ->
  Bs4.find_all doc Bs4.DIV Bs4.TEXT_MD = before ++ div :: after ->
  forallb (fun d => negb (startswith (Bs4.text d) LABEL)) before = true ->
  startswith (Bs4.text div) LABEL = true ->
  PyFloat.parse (skipn 9 (removelast (Bs4.text div))) = None ->
  pass (Responded st doc) a
  = Done tt (log (Print (Some ValueError)) (unlock a)).
Proof.
  intros Hurl Hsleep Hst Hdivs Hbefore Hdiv Hbad.
  unfold pass, try_except.
  rewrite (pass_after_sleep _ _ _ Hurl Hsleep).
  unfold bind at 1. rewrite fetch_answer, Hst.
  unfold bind at 1.
  rewrite (extract_first_labelled (mkResponse st doc) _ before after div)
    by assumption.
  unfold lift, float_. rewrite Hbad. reflexivity.
Qed.

Lemma bad_number_is_printed_witness :
  pass (page (LABEL ++ [32] ++ lit "229,5" ++ UNIT)) started
  = Done tt (log (Print (Some ValueError)) (unlock started)) /\
  pass (page LABEL) started
  = Done tt (log (Print (Some ValueError)) (unlock started)).
Proof.
  split.
  - apply (bad_number_is_printed started (lit "http://inverter.local/status")
             200 _ [] []
             (Tag Bs4.DIV [Bs4.TEXT_MD]
                [Text (LABEL ++ [32] ++ lit "229,5" ++ UNIT)]));
      reflexivity.
  - apply (bad_number_is_printed started (lit "http://inverter.local/status")
             200 _ [] [] (Tag Bs4.DIV [Bs4.TEXT_MD] [Text LABEL]));
      reflexivity.
Defined.

(** ** Starting and stopping *)

(** X10.  Starting is idempotent: a second [start_monitoring] starts no
    second worker and changes nothing but to show the "already running"
    box; from a stopped application the two calls leave one more worker than
    there was. *)
Theorem start_twice (a : App) :
  run [Start; Start] a = log (Information true) (run [Start] a) /\
  (monitoring a = false ->
   threads (run [Start; Start] a) = S (threads a) /\
   monitoring (run [Start; Start] a) = true).
Proof.
  unfold run; cbn [fold_left step].
  unfold start_monitoring, bind, get, modify.
  destruct (monitoring a) eqn:Hm; cbn; rewrite ?Hm; cbn.
  - split; [reflexivity | discriminate].
  - split; [reflexivity | intros _; split; reflexivity].
Qed.

(** X11.  Stopping is idempotent, and stopping an application that is not
    monitoring only shows the "stopped" box: flag, buttons, workers, latch
    and configuration stay. *)
Theorem stop_twice (a : App) :
  run [Stop; Stop] a = log (Information false) (run [Stop] a) /\
  (monitoring a = false -> run [Stop] a = log (Information false) a).
Proof.
  unfold run; cbn [fold_left step].
  unfold stop_monitoring, bind, get, modify.
  destruct (monitoring a) eqn:Hm; cbn; rewrite ?Hm; cbn.
  - split; [reflexivity | discriminate].
  - split; [reflexivity | intros _; reflexivity].
Qed.

Lemma turn_while_monitoring (net : network) (a : App) :
  monitoring a = true ->
  monitoring (turn net a) = true /\ threads (turn net a) = threads a.
Proof.
  intros Hon. unfold turn. destruct (threads a) eqn:Hth; [now split|].
  rewrite Hon. destruct (keeps_pass net a) as (Hm & Ht & _).
  split; congruence.
Qed.

Lemma turns_while_monitoring (nets : list network) (a : App) :
  monitoring a = true ->
  monitoring (run (map Turn nets) a) = true /\
  threads (run (map Turn nets) a) = threads a.
Proof.
  revert a. unfold run.
  induction nets as [|net nets IH]; intros a Hon; cbn [map fold_left step].
  - now split.
  - destruct (turn_while_monitoring net a Hon) as [Hm Ht].
    destruct (IH _ Hm) as [Hm' Ht']. split; congruence.
Qed.

(** X12.  [stop()] followed by [start()] before the worker has come round
    to the test of the flag leaves that worker in the loop beside the new
    one: the flag it will read is up again, so from then on both go round,
    however many turns are taken and whatever the network answers. *)
Theorem restart_doubles_workers (a : App) (nets : list network) :
  monitoring a = true ->
  threads (run [Stop; Start] a) = S (threads a) /\
  threads (run (map Turn nets) (run [Stop; Start] a)) = S (threads a) /\
  monitoring (run (map Turn nets) (run [Stop; Start] a)) = true.
Proof.
  intros Hon.
  assert (Hflag : monitoring (run [Stop; Start] a) = true).
  { unfold run; cbn [fold_left step].
    unfold stop_monitoring, start_monitoring, bind, get, modify.
    rewrite Hon. reflexivity. }
  assert (Hthreads : threads (run [Stop; Start] a) = S (threads a)).
  { unfold run; cbn [fold_left step].
    unfold stop_monitoring, start_monitoring, bind, get, modify.
    rewrite Hon. reflexivity. }
  destruct (turns_while_monitoring nets _ Hflag) as [Hm Ht].
  repeat split; congruence.
Qed.

Lemma restart_doubles_workers_witness :
  threads (run [Stop; Start] started) = S (threads started) /\
  threads (run (map Turn [showing "230.1"; TimedOut; showing "199.0"])
               (run [Stop; Start] started))
  = S (threads started) /\
  monitoring (run (map Turn [showing "230.1"; TimedOut; showing "199.0"])
                  (run [Stop; Start] started))
  = true.
Proof. apply restart_doubles_workers. reflexivity. Defined.

(** X13.  After [stop()] the next turn of a worker takes it out of the loop
    without a request: whatever the page would have shown, nothing is
    printed or emitted, the latch stays, the start button is enabled and the
    worker is gone. *)
Theorem stopped_worker_leaves (a : App) (net : network) (n : nat) :
  monitoring a = true ->
  threads a = S n ->
  step (run [Stop] a) (Turn net)
  = set_start_button true (set_threads n (run [Stop] a)) /\
  trace (run [Stop; Turn net] a) = trace a /\
  alerted (run [Stop; Turn net] a) = alerted a /\
  threads (run [Stop; Turn net] a) = n.
Proof.
  intros Hon Hth.
  unfold run; cbn [fold_left step].
  unfold stop_monitoring, bind, get, modify. rewrite Hon.
  cbn [negb state_of]. unfold turn.
  cbn [threads monitoring set_stop_button set_start_button set_monitoring].
  rewrite Hth. repeat split.
Qed.

Lemma stopped_worker_leaves_witness :
  step (run [Stop] started) (Turn (showing "150.0"))
  = set_start_button true (set_threads 0 (run [Stop] started)) /\
  trace (run [Stop; Turn (showing "150.0")] started) = trace started /\
  alerted (run [Stop; Turn (showing "150.0")] started) = alerted started /\
  threads (run [Stop; Turn (showing "150.0")] started) = 0%nat.
Proof. apply stopped_worker_leaves; reflexivity. Defined.

(** ** The lock *)

Lemma preserves_ret {X A} (f : App -> X) (x : A) : preserves f (ret x).
Proof. intros a. reflexivity. Qed.

Lemma preserves_raise {X A} (f : App -> X) (e : exn) :
  preserves f (@raise A e).
Proof. intros a. reflexivity. Qed.

Lemma preserves_continue {X A} (f : App -> X) (c : site) :
  preserves f (@continue A c).
Proof. intros a. reflexivity. Qed.

Lemma preserves_get {X A} (f : App -> X) (g : App -> A) :
  preserves f (get g).
Proof. intros a. reflexivity. Qed.

Lemma preserves_modify {X} (f : App -> X) (g : App -> App) :
  (forall a, f (g a) = f a) -> preserves f (modify g).
Proof. intros Hg a. apply Hg. Qed.

Lemma preserves_bind {X A B} (f : App -> X) (c : M A) (k : A -> M B) :
  preserves f c -> (forall x, preserves f (k x)) -> preserves f (bind c k).
Proof.
  intros Hc Hk a. unfold bind. specialize (Hc a).
  destruct (c a) as [x a1 | w a1]; cbn [state_of] in *; [|exact Hc].
  now rewrite Hk.
Qed.

Lemma preserves_when {X} (f : App -> X) (b : bool) (c : M unit) :
  preserves f c -> preserves f (when b c).
Proof. intros Hc. destruct b; [exact Hc | apply preserves_ret]. Qed.

Lemma preserves_check {X} (f : App -> X) (r : option exn) :
  preserves f (check r).
Proof. destruct r; [apply preserves_raise | apply preserves_ret]. Qed.

Lemma preserves_lift {X A} (f : App -> X) (r : exn + A) :
  preserves f (lift r).
Proof. destruct r; [apply preserves_raise | apply preserves_ret]. Qed.

Lemma preserves_try_except {X A} (f : App -> X) (c : M A)
      (catches : exn -> bool) (h : exn -> M A) :
  preserves f c -> (forall e, preserves f (h e)) ->
  preserves f (try_except c catches h).
Proof.
  intros Hc Hh a. unfold try_except. specialize (Hc a).
  destruct (c a) as [x a1 | [e | s] a1]; cbn [state_of] in *; try exact Hc.
  destruct (catches e); [|exact Hc]. now rewrite Hh.
Qed.

(** After the snapshot the body never touches the lock, nor the buttons. *)
Lemma rest_preserves {X} (f : App -> X) (net : network) (u secs thr : value) :
  (forall b a, f (set_alerted b a) = f a) ->
  (forall e a, f (log e a) = f a) ->
  preserves f
    (try_except
       (check (sleep secs) ;;
        resp <- fetch u net ;;
        voltage <- extract resp ;;
        hysteresis voltage thr)
       (fun _ => true)
       (fun e => modify (log (Print (Some e))))).
Proof.
  intros Hal Hlog.
  unfold fetch, extract, hysteresis. cbv zeta.
  repeat match goal with
         | |- preserves _ (bind _ _) => apply preserves_bind; [|intros ?]
         | |- preserves _ (try_except _ _ _) =>
             apply preserves_try_except; [|intros ?]
         | |- preserves _ (when _ _) => apply preserves_when
         | |- preserves _ (modify (set_alerted _)) =>
             apply preserves_modify; intros ?; apply Hal
         | |- preserves _ (modify (log _)) =>
             apply preserves_modify; intros ?; apply Hlog
         | |- preserves _ (ret _) => apply preserves_ret
         | |- preserves _ (raise _) => apply preserves_raise
         | |- preserves _ (continue _) => apply preserves_continue
         | |- preserves _ (get _) => apply preserves_get
         | |- preserves _ (check _) => apply preserves_check
         | |- preserves _ (lift _) => apply preserves_lift
         end.
Qed.

Lemma pass_releases (net : network) (a : App) :
  mutex (state_of (pass net a)) = false.
Proof.
  change (pass net a)
    with (try_except
            (check (sleep (interval a)) ;;
             resp <- fetch (url a) net ;;
             voltage <- extract resp ;;
             hysteresis voltage (threshold a))
            (fun _ => true)
            (fun e => modify (log (Print (Some e)))) (unlock a)).
  rewrite (rest_preserves mutex net (url a) (interval a) (threshold a));
    reflexivity.
Qed.

Lemma step_releases (a : App) (act : action) :
  mutex a = false -> mutex (step a act) = false.
Proof.
  intros Hfree. destruct act as [| | s | s | s | net]; cbn [step].
  - unfold start_monitoring, bind, get, modify.
    destruct (monitoring a); exact Hfree.
  - unfold stop_monitoring, bind, get, modify.
    destruct (monitoring a); exact Hfree.
  - reflexivity.
  - unfold update_interval, try_finally, bind, lock, modify, lift, int_.
    destruct (PyInt.parse s); reflexivity.
  - unfold update_threshold, try_finally, bind, lock, modify, lift, float_.
    destruct (PyFloat.parse s); reflexivity.
  - unfold turn. destruct (threads a); [exact Hfree|].
    destruct (monitoring a); [apply pass_releases | exact Hfree].
Qed.

(** X14.  The lock is never left held: each slot releases it in its
    [finally], also when the conversion raises, and the loop takes it only
    for the three reads, between which nothing can raise.  So after any
    sequence of user actions and worker turns the lock is free. *)
Theorem lock_is_released (acts : list action) (a : App) :
  mutex a = false ->
  mutex (run acts a) = false.
Proof.
  revert a. unfold run.
  induction acts as [|act acts IH]; intros a Hfree; cbn [fold_left];
    [exact Hfree|].
  apply IH. now apply step_releases.
Qed.

Lemma lock_is_released_witness :
  mutex (run [Start; SetInterval (lit "soon"); Turn TimedOut;
              SetThreshold (lit ""); Turn (showing "199.0"); Stop]
             fresh)
  = false.
Proof. apply lock_is_released. reflexivity. Defined.

(** X15.  A slot writes its own attribute and nothing else: whether the
    input is taken or refused, the running flag, the latch, the workers,
    what has been emitted and printed and the two other settings are as they
    were, and the lock is released. *)
Theorem slots_write_one_field (a : App) (act : action) :
  match act with
  | SetUrl _ | SetInterval _ | SetThreshold _ => True
  | _ => False
  end ->
  monitoring (step a act) = monitoring a /\
  alerted (step a act) = alerted a /\
  threads (step a act) = threads a /\
  trace (step a act) = trace a /\
  mutex (step a act) = false /\
  ((forall s, act <> SetUrl s) -> url (step a act) = url a) /\
  ((forall s, act <> SetInterval s) -> interval (step a act) = interval a) /\
  ((forall s, act <> SetThreshold s) -> threshold (step a act) = threshold a).
Proof.
  destruct act as [| | s | s | s |]; try contradiction; intros _; cbn [step].
  - repeat split. intros H. now destruct (H s).
  - unfold update_interval, try_finally, bind, lock, modify, lift, int_.
    destruct (PyInt.parse s); repeat split; intros H; now destruct (H s).
  - unfold update_threshold, try_finally, bind, lock, modify, lift, float_.
    destruct (PyFloat.parse s); repeat split; intros H; now destruct (H s).
Qed.

Lemma slots_write_one_field_witness :
  monitoring (step latched (SetThreshold (lit "210"))) = monitoring latched /\
  alerted (step latched (SetThreshold (lit "210"))) = alerted latched /\
  threads (step latched (SetThreshold (lit "210"))) = threads latched /\
  trace (step latched (SetThreshold (lit "210"))) = trace latched /\
  mutex (step latched (SetThreshold (lit "210"))) = false /\
  ((forall s, SetThreshold (lit "210") <> SetUrl s) ->
   url (step latched (SetThreshold (lit "210"))) = url latched) /\
  ((forall s, SetThreshold (lit "210") <> SetInterval s) ->
   interval (step latched (SetThreshold (lit "210"))) = interval latched) /\
  ((forall s, SetThreshold (lit "210") <> SetThreshold s) ->
   threshold (step latched (SetThreshold (lit "210"))) = threshold latched).
Proof. apply slots_write_one_field. exact I. Defined.

(** ** Settings the loop cannot use *)

(** Where [time.sleep] refuses the interval the pass ends there. *)
Lemma sleep_refuses (net : network) (a : App) (e : exn) :
  sleep (interval a) = Some e ->
  pass net a = Done tt (log (Print (Some e)) (unlock a)).
Proof.
  intros Hsleep. unfold pass, try_except. rewrite body_unfold.
  unfold bind at 1. rewrite check_cases, Hsleep. reflexivity.
Qed.



Lemma idle_passes (nets : list network) (a : App) (e : exn) :
  monitoring a = true ->
  sleep (interval a) = Some e ->
  monitor_voltage nets a
  = (fold_left (fun a _ => log (Print (Some e)) (unlock a)) nets a, false).
Proof.
  revert a. induction nets as [|net nets IH]; intros a Hon Hsleep;
    cbn [monitor_voltage fold_left]; rewrite Hon; [reflexivity|].
  rewrite (sleep_refuses net a e Hsleep). cbn [state_of].
  apply IH; [exact Hon | exact Hsleep].
Qed.

Lemma idle_trace (nets : list network) (a : App) (e : exn) :
  trace (fold_left (fun a _ => log (Print (Some e)) (unlock a)) nets a)
  = trace a ++ repeat (Print (Some e)) (List.length nets) /\
  alerted (fold_left (fun a _ => log (Print (Some e)) (unlock a)) nets a)
  = alerted a.
Proof.
  revert a. induction nets as [|net nets IH]; intros a; cbn [fold_left].
  - cbn. now rewrite app_nil_r.
  - destruct (IH (log (Print (Some e)) (unlock a))) as [-> ->].
    cbn [trace alerted log unlock set_mutex List.length repeat].
    now rewrite <- app_assoc.
Qed.

(** X17.  Without a usable [config.json] (no file, a file that does not
    load, or an object with no [check_interval]) the application still
    starts, with the interval [None]; the loop then runs, but every pass
    ends in the [TypeError] of [time.sleep]: one line printed per pass, no
    request, no alert.  A file that is missing or does not load is the one
    case in which the error box is shown. *)
Theorem no_interval_no_request (f : config_file) (nets : list network) :
  dict_get (fst (load_config f)) (lit "check_interval") = VNone ->
  (snd (load_config f) = true <-> f = NoFile \/ f = BadFile) /\
  snd (monitor_voltage nets (run [Start] (attributes f))) = false /\
  trace (fst (monitor_voltage nets (run [Start] (attributes f))))
  = repeat (Print (Some TypeError)) (List.length nets) /\
  alerted (fst (monitor_voltage nets (run [Start] (attributes f)))) = false.
Proof.
  intros Hnone. split.
  { destruct f; cbn; split; auto; try discriminate.
    intros [H | H]; discriminate H. }
  assert (Hon : monitoring (run [Start] (attributes f)) = true) by reflexivity.
  assert (Hsleep : sleep (interval (run [Start] (attributes f)))
                   = Some TypeError).
  { change (interval (run [Start] (attributes f)))
      with (dict_get (fst (load_config f)) (lit "check_interval")).
    now rewrite Hnone. }
  rewrite (idle_passes nets _ TypeError Hon Hsleep). cbn [fst snd].
  destruct (idle_trace nets (run [Start] (attributes f)) TypeError)
    as [-> ->].
  repeat split.
Qed.

Lemma no_interval_no_request_witness :
  (snd (load_config NoFile) = true <-> NoFile = NoFile \/ NoFile = BadFile) /\
  snd (monitor_voltage [showing "150.0"; showing "150.0"]
                       (run [Start] (attributes NoFile))) = false /\
  trace (fst (monitor_voltage [showing "150.0"; showing "150.0"]
                              (run [Start] (attributes NoFile))))
  = repeat (Print (Some TypeError))
           (List.length [showing "150.0"; showing "150.0"]) /\
  alerted (fst (monitor_voltage [showing "150.0"; showing "150.0"]
                                (run [Start] (attributes NoFile)))) = false.
Proof. apply no_interval_no_request. reflexivity. Defined.

(** X18.  A threshold that is not a number ([None] from a missing key, a
    JSON string, array or object) lets no pass reach a decision: whatever
    the page shows, the latch and the alerts emitted stay as they were. *)
Theorem no_threshold_no_alert (net : network) (a : App) :
  add_half (threshold a) = inl TypeError ->
  alerted (state_of (pass net a)) = alerted a /\
  emitted (state_of (pass net a)) = emitted a.
Proof.
  intros Hthr.
  destruct (body net a) as [[] a' | why a'] eqn:Hbody.
  - apply body_done in Hbody as [v Hv].
    unfold hysteresis, bind, lift in Hv. rewrite Hthr in Hv. discriminate Hv.
  - destruct (cut_short_is_quiet net a why a' Hbody)
      as (_ & _ & _ & Hal & Hem).
    split; congruence.
Qed.

Lemma no_threshold_no_alert_witness :
  alerted (state_of (pass (showing "150.0")
                          (set_threshold (VStr (lit "200")) started)))
  = alerted (set_threshold (VStr (lit "200")) started) /\
  emitted (state_of (pass (showing "150.0")
                          (set_threshold (VStr (lit "200")) started)))
  = emitted (set_threshold (VStr (lit "200")) started).
Proof. apply no_threshold_no_alert. reflexivity. Defined.

(** X19.  One reading at or above [threshold + 0.5] (and above the
    threshold) arms the latch again: the low reading after it raises an
    alert, whatever the latch was before the two. *)
Theorem recovery_rearms (hi lo t : float) (a : App) :
  PyFloat.ge hi (PyFloat.add t PyFloat.half) = true ->
  PyFloat.le hi t = false ->
  PyFloat.le lo t = true ->
  settle (VFloat t) [hi; lo] a = log (Emit lo) (set_alerted true a).
Proof.
  intros Hhi Hnot Hlo.
  unfold settle; cbn [fold_left].
  rewrite (hysteresis_float hi t a). cbv zeta. rewrite Hhi, Hnot.
  cbn [andb state_of].
  rewrite (hysteresis_float lo t (set_alerted false a)). cbv zeta.
  rewrite Hlo.
  destruct (PyFloat.ge lo (PyFloat.add t PyFloat.half)); reflexivity.
Qed.

Lemma recovery_rearms_witness :
  settle (VFloat (dec 200 0)) [dec 2005 (-1); dec 1999 (-1)] latched
  = log (Emit (dec 1999 (-1))) (set_alerted true latched).
Proof. apply recovery_rearms; reflexivity. Defined.
